(** * FootGame: ball physics, skill economy, player snapshots, game loop

    A shallow embedding of [FootGame.py]: [Ball], [Skill] and
    [SkillSystem], [Player] with its snapshot functions and its
    steering, [GUIManager], [CharacterFactory], [SaveSystem] and the
    loops of [GameEngine].  Each Python class is a module holding a
    record [t] and the methods as functions; the engine's menu object
    and its frame loops live in [Engine], next to the record of
    [GameEngine].

    Numbers.  Python's [int] and [float] values are embedded in the exact
    rationals [Q]; values the source annotates as [int] (skill costs, the
    bounds pair) or writes as integer literals (the ball radius) are kept
    in [Z] and injected where the source mixes them with floats.
    Arithmetic is exact: rounding, infinities and NaN are not modelled.

    Effects.  A method that mutates [self] returns the new object, next
    to its return value when it has one.  The wall clock ([time.time()]),
    the random source, [math.hypot], the events and held keys of pygame
    and the JSON codec are inputs of the functions that consult them.
    Dictionaries are finite maps; exceptions are a result type.  Of the
    drawing code only the rectangles of the status bars are kept. *)

From Stdlib Require Import ZArith QArith Lqa String.
From stdpp Require Import gmap strings.

Local Open Scope Z_scope.
Local Open Scope Q_scope.
Local Open Scope string_scope.

(** ** Python comparison and the two-argument [min] / [max] builtins *)

Module Py.

(** [a < b] on numbers. *)
Definition ltb (a b : Q) : bool := negb (Qle_bool b a).

(** [max(a, b)]: the first argument wins unless the second is
    strictly greater. *)
Definition max (a b : Q) : Q := if ltb a b then b else a.

(** [min(a, b)]: the first argument wins unless the second is
    strictly smaller. *)
Definition min (a b : Q) : Q := if ltb b a then b else a.

(** [x or y] on numbers: [x] unless it is zero. *)
Definition or_else (x y : Q) : Q := if Qeq_bool x 0 then y else x.

End Py.

(** ** Module constants and enumerations *)

Definition SCREEN_W : Z := 800.
Definition SCREEN_H : Z := 600.
Definition AI_MAX_FLOW : Z := 100.
Definition GAME_DURATION : Z := 300.

Inductive SkillType := FLOW | STAMINA | ULTIMATE.
Inductive PlayerType := STRIKER | MIDFIELDER | DEFENDER | GOALKEEPER.
Inductive ControlType := KEYBOARD | AI.
Inductive GameState := MENU | PLAYING | PAUSED | GOAL | GAME_OVER.

(** The [.value] of an enumeration member, and the lookup by value that
    calling the enumeration class performs. *)
Definition PlayerType_value (t : PlayerType) : string :=
  match t with
  | STRIKER => "striker"
  | MIDFIELDER => "midfielder"
  | DEFENDER => "defender"
  | GOALKEEPER => "goalkeeper"
  end.

Definition PlayerType_of_value (s : string) : option PlayerType :=
  if String.eqb s "striker" then Some STRIKER
  else if String.eqb s "midfielder" then Some MIDFIELDER
  else if String.eqb s "defender" then Some DEFENDER
  else if String.eqb s "goalkeeper" then Some GOALKEEPER
  else None.

Definition ControlType_value (c : ControlType) : string :=
  match c with
  | KEYBOARD => "keyboard"
  | AI => "ai"
  end.

Definition ControlType_of_value (s : string) : option ControlType :=
  if String.eqb s "keyboard" then Some KEYBOARD
  else if String.eqb s "ai" then Some AI
  else None.

Definition PlayerType_eqb (a b : PlayerType) : bool :=
  match a, b with
  | STRIKER, STRIKER | MIDFIELDER, MIDFIELDER
  | DEFENDER, DEFENDER | GOALKEEPER, GOALKEEPER => true
  | _, _ => false
  end.

Definition ControlType_eqb (a b : ControlType) : bool :=
  match a, b with
  | KEYBOARD, KEYBOARD | AI, AI => true
  | _, _ => false
  end.

(** ** Snapshot values and exceptions *)

(** The values a player snapshot holds: strings, numbers, a list of
    numbers (the position) and a dictionary from strings to numbers (the
    cooldowns). *)
Inductive pyval :=
| VStr (s : string)
| VNum (q : Q)
| VList (xs : list Q)
| VDict (m : gmap string Q).

Inductive exn :=
| KeyError (key : string)
| ValueError
| IndexError.

(** Result of a call that may raise.  [IllTyped] marks a snapshot value
    whose type is not the one [to_dict] writes for its key; the embedding
    does not follow the source on such values. *)
Inductive outcome (A : Type) :=
| Ok (a : A)
| Raise (e : exn)
| IllTyped.
Arguments Ok {A} a.
Arguments Raise {A} e.
Arguments IllTyped {A}.

#[global] Instance outcome_ret : MRet outcome := fun A a => Ok a.

#[global] Instance outcome_bind : MBind outcome := fun A B k m =>
  match m with
  | Ok a => k a
  | Raise e => Raise e
  | IllTyped => IllTyped
  end.

(** [d[key]] and [d.get(key, dflt)]. *)
Definition getitem (d : gmap string pyval) (key : string) : outcome pyval :=
  match d !! key with
  | Some v => Ok v
  | None => Raise (KeyError key)
  end.

Definition get (d : gmap string pyval) (key : string) (dflt : pyval) : pyval :=
  default dflt (d !! key).

Definition as_str (v : pyval) : outcome string :=
  match v with VStr s => Ok s | _ => IllTyped end.

Definition as_num (v : pyval) : outcome Q :=
  match v with VNum q => Ok q | _ => IllTyped end.

Definition as_dict (v : pyval) : outcome (gmap string Q) :=
  match v with VDict m => Ok m | _ => IllTyped end.

(** [tuple(v)] for the position entry. *)
Definition tuple (v : pyval) : outcome (list Q) :=
  match v with VList xs => Ok xs | _ => IllTyped end.

(** [PlayerType(v)] and [ControlType(v)]: [ValueError] unless [v] is the
    value of a member. *)
Definition PlayerType_call (v : pyval) : outcome PlayerType :=
  match v with
  | VStr s =>
      match PlayerType_of_value s with
      | Some t => Ok t
      | None => Raise ValueError
      end
  | _ => Raise ValueError
  end.

Definition ControlType_call (v : pyval) : outcome ControlType :=
  match v with
  | VStr s =>
      match ControlType_of_value s with
      | Some c => Ok c
      | None => Raise ValueError
      end
  | _ => Raise ValueError
  end.

(** ** Ball *)

Module Ball.

(** [pos] and [vel] are two-element lists; [radius] and [friction] are
    set once by the constructor. *)
Record t := mk {
  pos : Q * Q;
  vel : Q * Q;
  radius : Z;
  friction : Q
}.

(** [Ball.__init__(x, y)]. *)
Definition __init__ (x y : Q) : t :=
  {| pos := (x, y); vel := (0, 0); radius := 8%Z; friction := 0.95 |}.

(** [Ball.update(dt, bounds)]: the ball after the call and the value
    returned ([None], ["A"] or ["B"]).  Position and velocity are
    written before the goal tests; both goal branches return before
    the vertical clamp. *)
Definition update (b : t) (dt : Q) (bounds : Z * Z) : t * option string :=
  let x := fst (pos b) + fst (vel b) * dt * 60 in
  let y := snd (pos b) + snd (vel b) * dt * 60 in
  let vx := fst (vel b) * friction b in
  let vy := snd (vel b) * friction b in
  if Py.ltb x 0 then
    ({| pos := (x, y); vel := (vx, vy);
        radius := radius b; friction := friction b |}, Some "B")
  else if Py.ltb (inject_Z (fst bounds)) x then
    ({| pos := (x, y); vel := (vx, vy);
        radius := radius b; friction := friction b |}, Some "A")
  else
    let y' := Py.max (inject_Z (radius b))
                     (Py.min (inject_Z (snd bounds - radius b)) y) in
    ({| pos := (x, y'); vel := (vx, vy);
        radius := radius b; friction := friction b |}, None).

End Ball.

(** ** Skills *)

(** Values of a skill's [effect] dictionary and their truth value. *)
Inductive effect_val :=
| EInt (z : Z)
| EFloat (q : Q)
| EBool (b : bool).

Definition truthy (v : effect_val) : bool :=
  match v with
  | EInt z => negb (Z.eqb z 0)
  | EFloat q => negb (Qeq_bool q 0)
  | EBool b => b
  end.

Module Skill.

Record t := mk {
  name : string;
  type : SkillType;
  flow_cost : Z;
  stamina_cost : Z;
  cooldown : Q;
  effect : gmap string effect_val
}.

End Skill.

(** ** Player *)

Module Player.

Record t := mk {
  name : string;
  team : string;
  ptype : PlayerType;
  ai_lvl : Q;
  control : ControlType;
  pos : Q * Q;
  size : Z;
  level : Q;
  exp : Q;
  score : Q;
  max_stamina : Q;
  max_flow : Q;
  stamina : Q;
  flow : Q;
  skill_cd : gmap string Q;
  awakened_until : Q
}.

(** [Player.__init__]: [pos[0]] and [pos[1]] raise [IndexError] on a
    sequence shorter than two. *)
Definition __init__ (name team : string) (ptype : PlayerType) (ai_lvl : Q)
    (pos : list Q) (control : ControlType) : outcome t :=
  match pos with
  | x :: y :: _ =>
      Ok {| name := name; team := team; ptype := ptype; ai_lvl := ai_lvl;
            control := control; pos := (x, y); size := 24%Z;
            level := 1; exp := 0; score := 0;
            max_stamina := 100; max_flow := inject_Z AI_MAX_FLOW;
            stamina := 100; flow := 0;
            skill_cd := ∅; awakened_until := 0 |}
  | _ => Raise IndexError
  end.

(** [Player.to_dict]. *)
Definition to_dict (p : t) : gmap string pyval :=
  <["name" := VStr (name p)]> (
  <["team" := VStr (team p)]> (
  <["ptype" := VStr (PlayerType_value (ptype p))]> (
  <["ai_lvl" := VNum (ai_lvl p)]> (
  <["pos" := VList [fst (pos p); snd (pos p)]]> (
  <["control" := VStr (ControlType_value (control p))]> (
  <["level" := VNum (level p)]> (
  <["exp" := VNum (exp p)]> (
  <["score" := VNum (score p)]> (
  <["max_stamina" := VNum (max_stamina p)]> (
  <["max_flow" := VNum (max_flow p)]> (
  <["stamina" := VNum (stamina p)]> (
  <["flow" := VNum (flow p)]> (
  <["skill_cd" := VDict (skill_cd p)]> (
  <["awakened_until" := VNum (awakened_until p)]> ∅)))))))))))))).

(** [Player.from_dict]: the constructor arguments are evaluated left to
    right, then the remaining attributes are overwritten one by one;
    the default of [stamina] is the [max_stamina] just loaded. *)
Definition from_dict (d : gmap string pyval) : outcome t :=
  nm ← getitem d "name" ≫= as_str;
  tm ← getitem d "team" ≫= as_str;
  pt ← PlayerType_call (get d "ptype" (VStr (PlayerType_value STRIKER)));
  lvl ← as_num (get d "ai_lvl" (VNum 1));
  ps ← tuple (get d "pos" (VList [0; 0]));
  ct ← ControlType_call (get d "control" (VStr (ControlType_value AI)));
  p ← __init__ nm tm pt lvl ps ct;
  level' ← as_num (get d "level" (VNum 1));
  exp' ← as_num (get d "exp" (VNum 0));
  score' ← as_num (get d "score" (VNum 0));
  max_stamina' ← as_num (get d "max_stamina" (VNum 100));
  max_flow' ← as_num (get d "max_flow" (VNum (inject_Z AI_MAX_FLOW)));
  stamina' ← as_num (get d "stamina" (VNum max_stamina'));
  flow' ← as_num (get d "flow" (VNum 0));
  skill_cd' ← as_dict (get d "skill_cd" (VDict ∅));
  awakened_until' ← as_num (get d "awakened_until" (VNum 0));
  mret {| name := name p; team := team p; ptype := ptype p;
          ai_lvl := ai_lvl p; control := control p; pos := pos p;
          size := size p;
          level := level'; exp := exp'; score := score';
          max_stamina := max_stamina'; max_flow := max_flow';
          stamina := stamina'; flow := flow';
          skill_cd := skill_cd'; awakened_until := awakened_until' |}.

(** [Player.awaken], with the clock reading [now]. *)
Definition awaken (p : t) (now : Q) : t :=
  {| name := name p; team := team p; ptype := ptype p;
     ai_lvl := ai_lvl p; control := control p; pos := pos p;
     size := size p; level := level p; exp := exp p; score := score p;
     max_stamina := max_stamina p; max_flow := max_flow p;
     stamina := max_stamina p; flow := 0;
     skill_cd := skill_cd p; awakened_until := now + 10 |}.

(** Assignment to both entries of [self.pos], and [ball.vel = [...]]. *)
Definition set_pos (p : t) (xy : Q * Q) : t :=
  {| name := name p; team := team p; ptype := ptype p;
     ai_lvl := ai_lvl p; control := control p; pos := xy;
     size := size p; level := level p; exp := exp p; score := score p;
     max_stamina := max_stamina p; max_flow := max_flow p;
     stamina := stamina p; flow := flow p;
     skill_cd := skill_cd p; awakened_until := awakened_until p |}.

Definition set_vel (b : Ball.t) (v : Q * Q) : Ball.t :=
  {| Ball.pos := Ball.pos b; Ball.vel := v;
     Ball.radius := Ball.radius b; Ball.friction := Ball.friction b |}.

Section Steering.

(** [math.hypot], an input of the model. *)
Variable hypot : Q -> Q -> Q.

(** [Player._move(target)], with the clock reading [now]. *)
Definition _move (p : t) (target : Q * Q) (now : Q) : t :=
  let dx := fst target - fst (pos p) in
  let dy := snd target - snd (pos p) in
  let m := Py.or_else (hypot dx dy) 1 in
  let spd := 2 + ai_lvl p * 0.3
             + (if Py.ltb now (awakened_until p) then 2 else 0) in
  set_pos p (fst (pos p) + dx / m * spd, snd (pos p) + dy / m * spd).

(** [Player._ai(dt, ball, players)]: the player and the ball after
    the call.  [rnd] is the draw of [random.random()]; the roster is
    not read. *)
Definition _ai (p : t) (dt : Q) (ball : Ball.t) (rnd now : Q)
  : t * Ball.t :=
  let d := hypot (fst (pos p) - fst (Ball.pos ball))
                 (snd (pos p) - snd (Ball.pos ball)) in
  let centre := (inject_Z SCREEN_W / 2, inject_Z SCREEN_H / 2) in
  if PlayerType_eqb (ptype p) STRIKER && Py.ltb d 50 then
    let direction_x := if String.eqb (team p) "A" then 1 else -1 in
    (p, set_vel ball (direction_x * 10, 0))
  else if PlayerType_eqb (ptype p) DEFENDER then
    if (String.eqb (team p) "A"
          && Py.ltb (fst (Ball.pos ball)) (inject_Z SCREEN_W / 2))
       || (String.eqb (team p) "B"
          && Py.ltb (inject_Z SCREEN_W / 2) (fst (Ball.pos ball)))
    then (_move p (Ball.pos ball) now, ball)
    else (_move p centre now, ball)
  else
    if Py.ltb d 30 then
      (p, set_vel ball
            ((fst (pos p) - fst (Ball.pos ball)) * 0.12,
             (snd (pos p) - snd (Ball.pos ball)) * 0.12))
    else
      let target := if Py.ltb rnd 0.2 then centre else Ball.pos ball in
      (_move p target now, ball).

(** [Player.update(dt, ball, players)]: every cooldown is lowered by
    [dt] and floored at zero, flow regenerates up to [max_flow], and
    an AI-controlled player then steers. *)
Definition update (p : t) (dt : Q) (ball : Ball.t) (rnd now : Q)
  : t * Ball.t :=
  let p1 :=
    {| name := name p; team := team p; ptype := ptype p;
       ai_lvl := ai_lvl p; control := control p; pos := pos p;
       size := size p; level := level p; exp := exp p;
       score := score p;
       max_stamina := max_stamina p; max_flow := max_flow p;
       stamina := stamina p;
       flow := Py.min (max_flow p) (flow p + dt * 5);
       skill_cd := (fun c => Py.max 0 (c - dt)) <$> skill_cd p;
       awakened_until := awakened_until p |} in
  if ControlType_eqb (control p1) AI then _ai p1 dt ball rnd now
  else (p1, ball).

End Steering.

End Player.

(** ** Skill system *)

Module SkillSystem.

Record t := mk { skills : gmap string Skill.t }.

(** [SkillSystem.register]. *)
Definition register (s : t) (skill : Skill.t) : t :=
  {| skills := <[Skill.name skill := skill]> (skills s) |}.

(** [SkillSystem.__init__]: the four built-in skills. *)
Definition __init__ : t :=
  let s0 := {| skills := ∅ |} in
  let s1 := register s0
    (Skill.mk "Power Shot" FLOW 30 10 5 {["mult" := EInt 2]}) in
  let s2 := register s1
    (Skill.mk "Iron Tackle" STAMINA 0 40 8 {["boost" := EBool true]}) in
  let s3 := register s2
    (Skill.mk "Field Vision" FLOW 40 20 10 {["buff" := EBool true]}) in
  register s3
    (Skill.mk "Awaken" ULTIMATE AI_MAX_FLOW 0 0 {["awaken" := EBool true]}).

(** [SkillSystem.can_use]. *)
Definition can_use (s : t) (p : Player.t) (name : string) : bool :=
  match skills s !! name with
  | None => false
  | Some sk =>
      if Py.ltb (Player.flow p) (inject_Z (Skill.flow_cost sk)) then false
      else if Py.ltb (Player.stamina p) (inject_Z (Skill.stamina_cost sk))
      then false
      else if Py.ltb 0 (default 0 (Player.skill_cd p !! name)) then false
      else true
  end.

(** [sk.effect.get("awaken")] as a condition. *)
Definition awaken_effect (sk : Skill.t) : bool :=
  match Skill.effect sk !! "awaken" with
  | Some v => truthy v
  | None => false
  end.

(** [SkillSystem.use], with the clock reading [now]: the player after
    the call and the returned flag.  Past the [can_use] gate the skill
    is registered, so [self.skills[name]] finds it. *)
Definition use (s : t) (p : Player.t) (name : string) (now : Q)
  : Player.t * bool :=
  if negb (can_use s p name) then (p, false)
  else
    match skills s !! name with
    | None => (p, false)
    | Some sk =>
        let p1 :=
          {| Player.name := Player.name p; Player.team := Player.team p;
             Player.ptype := Player.ptype p;
             Player.ai_lvl := Player.ai_lvl p;
             Player.control := Player.control p;
             Player.pos := Player.pos p; Player.size := Player.size p;
             Player.level := Player.level p; Player.exp := Player.exp p;
             Player.score := Player.score p;
             Player.max_stamina := Player.max_stamina p;
             Player.max_flow := Player.max_flow p;
             Player.stamina :=
               Player.stamina p - inject_Z (Skill.stamina_cost sk);
             Player.flow := Player.flow p - inject_Z (Skill.flow_cost sk);
             Player.skill_cd :=
               <[name := Skill.cooldown sk]> (Player.skill_cd p);
             Player.awakened_until := Player.awakened_until p |} in
        if awaken_effect sk then (Player.awaken p1 now, true)
        else (p1, true)
    end.

End SkillSystem.

(** ** Game engine: the goal state *)

Module GameEngine.

Record t := mk {
  state : GameState;
  skill_sys : SkillSystem.t;
  ball : Ball.t;
  teams : gmap string Z;
  players : list Player.t;
  start : Q;
  goal_time : Q
}.

(** [GameEngine._goal_loop], with the clock reading [now]. *)
Definition _goal_loop (g : t) (now : Q) : t :=
  if Py.ltb 2 (now - goal_time g) then
    {| state := PLAYING; skill_sys := skill_sys g;
       ball := Ball.__init__ 400 300;
       teams := teams g; players := players g;
       start := start g; goal_time := goal_time g |}
  else g.

End GameEngine.

(** * Specification vocabulary and sample states *)

(** The closed interval the vertical clamp aims at. *)
Definition vertical_in_range (b : Ball.t) (bounds : Z * Z) : Prop :=
  inject_Z (Ball.radius b) <= snd (Ball.pos b)
  /\ snd (Ball.pos b) <= inject_Z (snd bounds - Ball.radius b).

(** A ball near the left edge, inside the vertical range, moving up and
    to the left. *)
Definition ball_leaving_left : Ball.t :=
  {| Ball.pos := (5, 10); Ball.vel := (-10, -5);
     Ball.radius := 8; Ball.friction := 0.95 |}.

Definition ball_mid_field : Ball.t := Ball.__init__ 400 300.

(** The player left by the two assignments to the resources and the
    assignment to the cooldown entry in [use]. *)
Definition charged (p : Player.t) (name : string) (sk : Skill.t) : Player.t :=
  {| Player.name := Player.name p; Player.team := Player.team p;
     Player.ptype := Player.ptype p; Player.ai_lvl := Player.ai_lvl p;
     Player.control := Player.control p;
     Player.pos := Player.pos p; Player.size := Player.size p;
     Player.level := Player.level p; Player.exp := Player.exp p;
     Player.score := Player.score p;
     Player.max_stamina := Player.max_stamina p;
     Player.max_flow := Player.max_flow p;
     Player.stamina := Player.stamina p - inject_Z (Skill.stamina_cost sk);
     Player.flow := Player.flow p - inject_Z (Skill.flow_cost sk);
     Player.skill_cd := <[name := Skill.cooldown sk]> (Player.skill_cd p);
     Player.awakened_until := Player.awakened_until p |}.

(** The human player of [_start_game] once flow has filled up, after a
    Power Shot has cost 10 stamina. *)
Definition player_full_flow : Player.t :=
  {| Player.name := "You"; Player.team := "B"; Player.ptype := STRIKER;
     Player.ai_lvl := 1; Player.control := KEYBOARD;
     Player.pos := (400, 500); Player.size := 24;
     Player.level := 1; Player.exp := 0; Player.score := 0;
     Player.max_stamina := 100; Player.max_flow := 100;
     Player.stamina := 90; Player.flow := 100;
     Player.skill_cd := {["Power Shot" := 0]};
     Player.awakened_until := 0 |}.

(** Stamina and flow lie between 0 and their maxima, and no cooldown is
    negative. *)
Definition resources_ok (p : Player.t) : Prop :=
  (0 <= Player.stamina p /\ Player.stamina p <= Player.max_stamina p)
  /\ (0 <= Player.flow p /\ Player.flow p <= Player.max_flow p)
  /\ map_Forall (fun _ c => 0 <= c) (Player.skill_cd p).

(** One operation on a player: a tick of [Player.update] with its
    inputs, a [SkillSystem.use] on the built-in registry, or a direct
    [Player.awaken]. *)
Inductive op :=
| Tick (dt : Q) (ball : Ball.t) (rnd now : Q)
| Use (name : string) (now : Q)
| Awaken (now : Q).

Definition op_admissible (o : op) : Prop :=
  match o with
  | Tick dt _ _ _ => 0 <= dt
  | Use _ _ | Awaken _ => True
  end.

(** The effect of one operation, and of a sequence of them, on a
    player. *)
Definition apply_op (hypot : Q -> Q -> Q) (p : Player.t) (o : op)
  : Player.t :=
  match o with
  | Tick dt ball rnd now => fst (Player.update hypot p dt ball rnd now)
  | Use name now => fst (SkillSystem.use SkillSystem.__init__ p name now)
  | Awaken now => Player.awaken p now
  end.

Definition apply_ops (hypot : Q -> Q -> Q) (p : Player.t) (os : list op)
  : Player.t :=
  fold_left (apply_op hypot) os p.

(** A snapshot entry that is present has the type [to_dict] writes for
    its key: a member value for the two enumerations, at least two
    numbers for the position. *)
Definition is_num (v : pyval) : bool :=
  match v with VNum _ => true | _ => false end.

Definition is_dict (v : pyval) : bool :=
  match v with VDict _ => true | _ => false end.

Definition is_pos (v : pyval) : bool :=
  match v with VList (_ :: _ :: _) => true | _ => false end.

Definition is_ptype (v : pyval) : bool :=
  match v with
  | VStr s => match PlayerType_of_value s with Some _ => true | None => false end
  | _ => false
  end.

Definition is_control (v : pyval) : bool :=
  match v with
  | VStr s =>
      match ControlType_of_value s with Some _ => true | None => false end
  | _ => false
  end.

Definition optional (d : gmap string pyval) (key : string)
    (ok : pyval -> bool) : bool :=
  match d !! key with
  | Some v => ok v
  | None => true
  end.

Definition optional_fields_typed (d : gmap string pyval) : bool :=
  optional d "ptype" is_ptype && optional d "ai_lvl" is_num
  && optional d "pos" is_pos && optional d "control" is_control
  && optional d "level" is_num && optional d "exp" is_num
  && optional d "score" is_num && optional d "max_stamina" is_num
  && optional d "max_flow" is_num && optional d "stamina" is_num
  && optional d "flow" is_num && optional d "skill_cd" is_dict
  && optional d "awakened_until" is_num.

(** What a key is loaded as: the entry when present, else the default. *)
Definition loaded_num (d : gmap string pyval) (key : string) (dflt : Q) : Q :=
  match d !! key with Some (VNum q) => q | _ => dflt end.

Definition loaded_dict (d : gmap string pyval) (key : string)
    (dflt : gmap string Q) : gmap string Q :=
  match d !! key with Some (VDict m) => m | _ => dflt end.

Definition loaded_pos (d : gmap string pyval) (key : string)
    (dflt : Q * Q) : Q * Q :=
  match d !! key with Some (VList (x :: y :: _)) => (x, y) | _ => dflt end.

Definition loaded_ptype (d : gmap string pyval) (key : string)
    (dflt : PlayerType) : PlayerType :=
  match d !! key with
  | Some (VStr s) => default dflt (PlayerType_of_value s)
  | _ => dflt
  end.

Definition loaded_control (d : gmap string pyval) (key : string)
    (dflt : ControlType) : ControlType :=
  match d !! key with
  | Some (VStr s) => default dflt (ControlType_of_value s)
  | _ => dflt
  end.

(** The player a typed snapshot with a name and a team loads as. *)
Definition loaded (d : gmap string pyval) (nm tm : string) : Player.t :=
  {| Player.name := nm;
     Player.team := tm;
     Player.ptype := loaded_ptype d "ptype" STRIKER;
     Player.ai_lvl := loaded_num d "ai_lvl" 1;
     Player.control := loaded_control d "control" AI;
     Player.pos := loaded_pos d "pos" (0, 0);
     Player.size := 24;
     Player.level := loaded_num d "level" 1;
     Player.exp := loaded_num d "exp" 0;
     Player.score := loaded_num d "score" 0;
     Player.max_stamina := loaded_num d "max_stamina" 100;
     Player.max_flow := loaded_num d "max_flow" 100;
     Player.stamina :=
       loaded_num d "stamina" (loaded_num d "max_stamina" 100);
     Player.flow := loaded_num d "flow" 0;
     Player.skill_cd := loaded_dict d "skill_cd" ∅;
     Player.awakened_until := loaded_num d "awakened_until" 0 |}.

(** A snapshot holding nothing but the two required fields. *)
Definition snapshot_identity_only : gmap string pyval :=
  <["name" := VStr "Alex"]> (<["team" := VStr "A"]> ∅).

(** An engine in the goal state: the goal was recorded at time 100, with
    the ball past the left edge. *)
Definition engine_after_goal : GameEngine.t :=
  {| GameEngine.state := GOAL;
     GameEngine.skill_sys := SkillSystem.__init__;
     GameEngine.ball := fst (Ball.update ball_leaving_left (1 # 60) (800, 600)%Z);
     GameEngine.teams := <["B" := 1%Z]> {["A" := 0%Z]};
     GameEngine.players := [player_full_flow];
     GameEngine.start := 40;
     GameEngine.goal_time := 100 |}.

(** * The rest of the game: menu, roster, input, frames, bars, save file *)

(** ** Exceptions and results *)

Module Exc.

Inductive t := ZeroDivisionError | KeyError | IndexError | ValueError.

End Exc.

(** Result of a call that returns or raises. *)
Inductive result (A : Type) :=
| Return (a : A)
| Raised (e : Exc.t).
Arguments Return {A} a.
Arguments Raised {A} e.

#[global] Instance result_ret : MRet result := fun A a => Return a.

#[global] Instance result_bind : MBind result := fun A B k m =>
  match m with
  | Return a => k a
  | Raised e => Raised e
  end.

(** [a % b] on integers: the sign of the result follows the divisor. *)
Definition py_mod (a b : Z) : result Z :=
  if (b =? 0)%Z then Raised Exc.ZeroDivisionError else Return (a mod b)%Z.

(** [a / b] on numbers. *)
Definition py_truediv (a b : Q) : result Q :=
  if Qeq_bool b 0 then Raised Exc.ZeroDivisionError else Return (a / b).

(** [l[i]]: a negative index counts from the end. *)
Definition py_index {A : Type} (l : list A) (i : Z) : result A :=
  let n := Z.of_nat (length l) in
  let j := if (i <? 0)%Z then (i + n)%Z else i in
  if (j <? 0)%Z || (n <=? j)%Z then Raised Exc.IndexError
  else match l !! Z.to_nat j with
       | Some a => Return a
       | None => Raised Exc.IndexError
       end.

(** ** Keys and events *)

Module pygame.

(** The key constants the game names, and any other key code. *)
Inductive key :=
| K_UP | K_DOWN | K_LEFT | K_RIGHT | K_ESCAPE
| K_g | K_1 | K_2 | K_w | K_s | K_a | K_d
| K_other (code : Z).

(** An event of [pygame.event.get()] by its [type]; a [KEYDOWN] carries
    its [key]. *)
Inductive event :=
| QUIT
| KEYDOWN (k : key)
| OTHER.

Definition key_eqb (a b : key) : bool :=
  match a, b with
  | K_UP, K_UP | K_DOWN, K_DOWN | K_LEFT, K_LEFT | K_RIGHT, K_RIGHT
  | K_ESCAPE, K_ESCAPE | K_g, K_g | K_1, K_1 | K_2, K_2
  | K_w, K_w | K_s, K_s | K_a, K_a | K_d, K_d => true
  | K_other c, K_other d => (c =? d)%Z
  | _, _ => false
  end.

End pygame.

(** ** GUIManager *)

Module GUIManager.

Record t := mk {
  options : list string;
  sel : Z
}.

(** [GUIManager.__init__]. *)
Definition __init__ : t := {| options := ["Start"; "Quit"]; sel := 0 |}.

(** [GUIManager.nav(e)] for a key event with key [k]: the menu after the
    call and the option returned. *)
Definition nav (m : t) (k : pygame.key) : result (t * string) :=
  let n := Z.of_nat (length (options m)) in
  s1 ← (if pygame.key_eqb k pygame.K_UP then py_mod (sel m - 1) n
        else Return (sel m));
  s2 ← (if pygame.key_eqb k pygame.K_DOWN then py_mod (s1 + 1) n
        else Return s1);
  o ← py_index (options m) s2;
  Return ({| options := options m; sel := s2 |}, o).

End GUIManager.

(** ** CharacterFactory *)

(** [Player(name, team, ptype, ai_lvl, (x, y), control)]: the
    constructor called with a pair. *)
Definition Player_new (name team : string) (ptype : PlayerType) (ai_lvl : Q)
    (x y : Q) (control : ControlType) : Player.t :=
  {| Player.name := name; Player.team := team; Player.ptype := ptype;
     Player.ai_lvl := ai_lvl; Player.control := control;
     Player.pos := (x, y); Player.size := 24%Z;
     Player.level := 1; Player.exp := 0; Player.score := 0;
     Player.max_stamina := 100; Player.max_flow := inject_Z AI_MAX_FLOW;
     Player.stamina := 100; Player.flow := 0;
     Player.skill_cd := ∅; Player.awakened_until := 0 |}.

Module CharacterFactory.

Record template := mk_template {
  t_name : string;
  t_ptype : string;
  t_ai : Z
}.

Definition TEMPLATES : list template :=
  [ mk_template "Alex" "striker" 6;
    mk_template "Sam" "midfielder" 5;
    mk_template "Lee" "defender" 7;
    mk_template "Jin" "goalkeeper" 4 ].

(** The three random results one template consumes:
    [random.choice(["A", "B"])], [true] for the first element, and the
    two [random.randint]. *)
Record draw := mk_draw {
  choice : bool;
  randx : Z;
  randy : Z
}.

(** The loop of [create_all] over the templates from the [i]-th on;
    [rand i] holds the draws of the [i]-th iteration. *)
Fixpoint create_from (ts : list template) (i : nat) (rand : nat -> draw)
  : result (list Player.t) :=
  match ts with
  | [] => Return []
  | t :: ts' =>
      match PlayerType_of_value (t_ptype t) with
      | None => Raised Exc.ValueError
      | Some pt =>
          let p :=
            Player_new (t_name t) (if choice (rand i) then "A" else "B") pt
              (inject_Z (t_ai t))
              (inject_Z (randx (rand i))) (inject_Z (randy (rand i))) AI in
          rest ← create_from ts' (S i) rand;
          Return (p :: rest)
      end
  end.

(** [CharacterFactory.create_all]. *)
Definition create_all (rand : nat -> draw) : result (list Player.t) :=
  create_from TEMPLATES 0 rand.

End CharacterFactory.

(** ** The status bars of a player *)

(** One [pygame.draw.rect] call: the colour and the rectangle
    [(left, top, width, height)]. *)
Record rect_call := mk_rect {
  rect_colour : Z * Z * Z;
  rect_left : Q;
  rect_top : Q;
  rect_width : Q;
  rect_height : Q
}.

(** [Player._draw_bars]: the four rectangles it draws, in order. *)
Definition _draw_bars (p : Player.t) : result (list rect_call) :=
  let sz := inject_Z (Player.size p) in
  let x := fst (Player.pos p) - sz / 2 in
  let y := snd (Player.pos p) + sz / 2 in
  let back1 := mk_rect (50, 50, 50)%Z x y sz 4 in
  rs ← py_truediv (Player.stamina p) (Player.max_stamina p);
  let bar1 := mk_rect (0, 255, 0)%Z x y (sz * rs) 4 in
  let back2 := mk_rect (50, 50, 50)%Z x (y + 5) sz 4 in
  rf ← py_truediv (Player.flow p) (Player.max_flow p);
  let bar2 := mk_rect (0, 255, 255)%Z x (y + 5) (sz * rf) 4 in
  Return [back1; bar1; back2; bar2].

(** ** The engine with its menu: input handling and the frame loops *)

Module Engine.

(** The engine of [GameEngine] together with its [menu] object. *)
Record t := mk {
  core : GameEngine.t;
  menu : GUIManager.t
}.

(** What one iteration of [run] reads from outside: the events, the
    held keys, the frame time, the clock reading of the loop itself
    ([now]), the clock reading of the skill triggered by the [i]-th
    event, the random draw and clock reading of the [i]-th player's
    update, and the draws of the roster. *)
Record frame := mk_frame {
  events : list pygame.event;
  pressed : pygame.key -> bool;
  dt : Q;
  now : Q;
  skill_now : nat -> Q;
  steer : nat -> Q * Q;
  rand : nat -> CharacterFactory.draw
}.

Definition set_state (g : GameEngine.t) (s : GameState) : GameEngine.t :=
  {| GameEngine.state := s; GameEngine.skill_sys := GameEngine.skill_sys g;
     GameEngine.ball := GameEngine.ball g;
     GameEngine.teams := GameEngine.teams g;
     GameEngine.players := GameEngine.players g;
     GameEngine.start := GameEngine.start g;
     GameEngine.goal_time := GameEngine.goal_time g |}.

Definition set_players (g : GameEngine.t) (ps : list Player.t)
  : GameEngine.t :=
  {| GameEngine.state := GameEngine.state g;
     GameEngine.skill_sys := GameEngine.skill_sys g;
     GameEngine.ball := GameEngine.ball g;
     GameEngine.teams := GameEngine.teams g;
     GameEngine.players := ps;
     GameEngine.start := GameEngine.start g;
     GameEngine.goal_time := GameEngine.goal_time g |}.

Definition set_ball (g : GameEngine.t) (b : Ball.t) : GameEngine.t :=
  {| GameEngine.state := GameEngine.state g;
     GameEngine.skill_sys := GameEngine.skill_sys g;
     GameEngine.ball := b;
     GameEngine.teams := GameEngine.teams g;
     GameEngine.players := GameEngine.players g;
     GameEngine.start := GameEngine.start g;
     GameEngine.goal_time := GameEngine.goal_time g |}.

(** [GameEngine.__init__]. *)
Definition __init__ : t :=
  {| core :=
       {| GameEngine.state := MENU;
          GameEngine.skill_sys := SkillSystem.__init__;
          GameEngine.ball := Ball.__init__ 400 300;
          GameEngine.teams := <["A" := 0%Z]> (<["B" := 0%Z]> ∅);
          GameEngine.players := [];
          GameEngine.start := 0;
          GameEngine.goal_time := 0 |};
     menu := GUIManager.__init__ |}.

(** The roster after [f] has been applied, in place, to the first
    keyboard-controlled player, the [hp] of the two input handlers;
    unchanged when there is none. *)
Fixpoint on_human (f : Player.t -> Player.t) (ps : list Player.t)
  : list Player.t :=
  match ps with
  | [] => []
  | p :: ps' =>
      if ControlType_eqb (Player.control p) KEYBOARD then f p :: ps'
      else p :: on_human f ps'
  end.

(** [GameEngine._handle_skill_key(key)], with the clock reading [now]. *)
Definition _handle_skill_key (g : GameEngine.t) (k : pygame.key) (now : Q)
  : result GameEngine.t :=
  name ← match k with
         | pygame.K_g => Return "Awaken"
         | pygame.K_1 => Return "Power Shot"
         | pygame.K_2 => Return "Field Vision"
         | _ => Raised Exc.KeyError
         end;
  Return (set_players g
            (on_human
               (fun hp => fst (SkillSystem.use (GameEngine.skill_sys g) hp
                                 name now))
               (GameEngine.players g))).

(** The body of [_handle_movement] on the human player [hp]. *)
Definition move_human (pressed : pygame.key -> bool) (hp : Player.t)
  : Player.t :=
  let spd := 4 in
  let y1 := if pressed pygame.K_w || pressed pygame.K_UP
            then snd (Player.pos hp) - spd else snd (Player.pos hp) in
  let y2 := if pressed pygame.K_s || pressed pygame.K_DOWN
            then y1 + spd else y1 in
  let x1 := if pressed pygame.K_a || pressed pygame.K_LEFT
            then fst (Player.pos hp) - spd else fst (Player.pos hp) in
  let x2 := if pressed pygame.K_d || pressed pygame.K_RIGHT
            then x1 + spd else x1 in
  let half := inject_Z (Player.size hp) / 2 in
  let x3 := Py.max half (Py.min (inject_Z SCREEN_W - half) x2) in
  let y3 := Py.max half (Py.min (inject_Z SCREEN_H - half) y2) in
  Player.set_pos hp (x3, y3).

(** [GameEngine._handle_movement]. *)
Definition _handle_movement (g : GameEngine.t) (pressed : pygame.key -> bool)
  : GameEngine.t :=
  set_players g (on_human (move_human pressed) (GameEngine.players g)).

(** [GameEngine._start_game], with the draws of the roster and the
    clock reading [now]. *)
Definition _start_game (g : GameEngine.t)
    (rand : nat -> CharacterFactory.draw) (now : Q) : result GameEngine.t :=
  ps ← CharacterFactory.create_all rand;
  Return
    {| GameEngine.state := GameEngine.state g;
       GameEngine.skill_sys := GameEngine.skill_sys g;
       GameEngine.ball := GameEngine.ball g;
       GameEngine.teams := <["A" := 0%Z]> (<["B" := 0%Z]> ∅);
       GameEngine.players :=
         ps ++ [Player_new "You" "B" STRIKER 1 400 500 KEYBOARD];
       GameEngine.start := now;
       GameEngine.goal_time := GameEngine.goal_time g |}.

(** The event loop of [_menu_loop].  Every start within one call reads
    the draws and the clock of the frame; only the last one survives. *)
Fixpoint menu_events (s : t) (es : list pygame.event) (f : frame)
  : result t :=
  match es with
  | [] => Return s
  | e :: es' =>
      let s1 :=
        match e with
        | pygame.QUIT => {| core := set_state (core s) GAME_OVER;
                            menu := menu s |}
        | _ => s
        end in
      s2 ← match e with
           | pygame.KEYDOWN k =>
               '(m, chosen) ← GUIManager.nav (menu s1) k;
               g1 ← (if String.eqb chosen "Start" then
                       g ← _start_game (core s1) (rand f) (now f);
                       Return (set_state g PLAYING)
                     else Return (core s1));
               Return {| core := if String.eqb chosen "Quit"
                                 then set_state g1 GAME_OVER else g1;
                         menu := m |}
           | _ => Return s1
           end;
      menu_events s2 es' f
  end.

(** [GameEngine._menu_loop]. *)
Definition _menu_loop (s : t) (f : frame) : result t :=
  menu_events s (events f) f.

(** The event loop of [_play_loop]; [i] counts the events. *)
Fixpoint play_events (g : GameEngine.t) (es : list pygame.event) (i : nat)
    (skill_now : nat -> Q) : result GameEngine.t :=
  match es with
  | [] => Return g
  | e :: es' =>
      let g1 :=
        match e with
        | pygame.QUIT => set_state g GAME_OVER
        | _ => g
        end in
      g2 ← match e with
           | pygame.KEYDOWN k =>
               let g' := if pygame.key_eqb k pygame.K_ESCAPE
                         then set_state g1 PAUSED else g1 in
               if pygame.key_eqb k pygame.K_g || pygame.key_eqb k pygame.K_1
                  || pygame.key_eqb k pygame.K_2
               then _handle_skill_key g' k (skill_now i)
               else Return g'
           | _ => Return g1
           end;
      play_events g2 es' (S i) skill_now
  end.

(** [for p in self.players: p.update(dt, self.ball, self.players)]: the
    players are updated in order on the one shared ball. *)
Fixpoint update_all (hypot : Q -> Q -> Q) (ps : list Player.t) (i : nat)
    (dt : Q) (ball : Ball.t) (steer : nat -> Q * Q)
  : list Player.t * Ball.t :=
  match ps with
  | [] => ([], ball)
  | p :: ps' =>
      let r := Player.update hypot p dt ball (fst (steer i)) (snd (steer i)) in
      let rs := update_all hypot ps' (S i) dt (snd r) steer in
      (fst r :: fst rs, snd rs)
  end.

(** [GameEngine._play_loop(dt)]. *)
Definition _play_loop (hypot : Q -> Q -> Q) (g : GameEngine.t) (f : frame)
  : result GameEngine.t :=
  g1 ← play_events g (events f) 0 (skill_now f);
  let g2 := _handle_movement g1 (pressed f) in
  let r := Ball.update (GameEngine.ball g2) (dt f) (SCREEN_W, SCREEN_H) in
  g3 ← match snd r with
       | Some side =>
           match GameEngine.teams g2 !! side with
           | Some n =>
               Return
                 {| GameEngine.state := GOAL;
                    GameEngine.skill_sys := GameEngine.skill_sys g2;
                    GameEngine.ball := fst r;
                    GameEngine.teams := <[side := (n + 1)%Z]> (GameEngine.teams g2);
                    GameEngine.players := GameEngine.players g2;
                    GameEngine.start := GameEngine.start g2;
                    GameEngine.goal_time := now f |}
           | None => Raised Exc.KeyError
           end
       | None => Return (set_ball g2 (fst r))
       end;
  let u := update_all hypot (GameEngine.players g3) 0 (dt f)
             (GameEngine.ball g3) (steer f) in
  Return (set_ball (set_players g3 (fst u)) (snd u)).

(** [GameEngine._pause_loop]. *)
Definition _pause_loop (g : GameEngine.t) (es : list pygame.event)
  : GameEngine.t :=
  fold_left
    (fun g e =>
       match e with
       | pygame.KEYDOWN k =>
           if pygame.key_eqb k pygame.K_ESCAPE then set_state g PLAYING else g
       | _ => g
       end)
    es g.

(** One iteration of the loop of [run]; in [GAME_OVER] the loop breaks
    and nothing changes. *)
Definition run_step (hypot : Q -> Q -> Q) (s : t) (f : frame) : result t :=
  match GameEngine.state (core s) with
  | MENU => _menu_loop s f
  | PLAYING =>
      g ← _play_loop hypot (core s) f;
      Return {| core := g; menu := menu s |}
  | GOAL =>
      Return {| core := GameEngine._goal_loop (core s) (now f);
                menu := menu s |}
  | PAUSED =>
      Return {| core := _pause_loop (core s) (events f); menu := menu s |}
  | GAME_OVER => Return s
  end.


End Engine.

(** ** SaveSystem *)

Module SaveSystem.

Section Json.

(** The saved value, [json.dump] as the text it writes and [json.load]
    as the value it reads, [None] when it raises; inputs of the model. *)
Variable J : Type.
Variable dumps : J -> string.
Variable loads : string -> option J.

(** [SaveSystem.save(state)] on the files [fs], [file] being
    [SaveSystem.FILE]: the file is created or overwritten. *)
Definition save (fs : gmap string string) (file : string) (state : J)
  : gmap string string :=
  <[file := dumps state]> fs.

(** [SaveSystem.load()]: [None] without a file, else what [json.load]
    makes of its text. *)
Definition load (fs : gmap string string) (file : string)
  : result (option J) :=
  match fs !! file with
  | None => Return None
  | Some text =>
      match loads text with
      | Some v => Return (Some v)
      | None => Raised Exc.ValueError
      end
  end.

End Json.

End SaveSystem.

(** ** Vocabulary of the further properties *)

(** [q] to the power [n]. *)
Fixpoint Qpow (q : Q) (n : nat) : Q :=
  match n with
  | O => 1
  | S n' => q * Qpow q n'
  end.

(** Successive calls of [Ball.update], one per frame time of [dts], on
    the bounds [bounds]. *)
Definition Ball_updates (b : Ball.t) (dts : list Q) (bounds : Z * Z)
  : Ball.t :=
  fold_left (fun b dt => fst (Ball.update b dt bounds)) dts b.






Definition is_human (p : Player.t) : bool :=
  ControlType_eqb (Player.control p) KEYBOARD.

(** A frame with no input, of a sixtieth of a second at clock 1000. *)
Definition quiet_frame : Engine.frame :=
  {| Engine.events := [];
     Engine.pressed := fun _ => false;
     Engine.dt := 1 # 60;
     Engine.now := 1000;
     Engine.skill_now := fun _ => 1000;
     Engine.steer := fun _ => (1 # 2, 1000);
     Engine.rand := fun _ => CharacterFactory.mk_draw true 100 100 |}.

Definition with_events (f : Engine.frame) (es : list pygame.event)
  : Engine.frame :=
  {| Engine.events := es;
     Engine.pressed := Engine.pressed f;
     Engine.dt := Engine.dt f;
     Engine.now := Engine.now f;
     Engine.skill_now := Engine.skill_now f;
     Engine.steer := Engine.steer f;
     Engine.rand := Engine.rand f |}.


(** The parts of the engine that input handling leaves alone. *)
Definition same_match (g g' : GameEngine.t) : Prop :=
  GameEngine.skill_sys g' = GameEngine.skill_sys g
  /\ GameEngine.ball g' = GameEngine.ball g
  /\ GameEngine.teams g' = GameEngine.teams g
  /\ GameEngine.start g' = GameEngine.start g
  /\ GameEngine.goal_time g' = GameEngine.goal_time g.

(** An escape key press. *)
Definition is_escape (e : pygame.event) : bool :=
  match e with
  | pygame.KEYDOWN k => pygame.key_eqb k pygame.K_ESCAPE
  | _ => false
  end.


(** The keys of a player snapshot. *)
Definition snapshot_keys : list string :=
  ["name"; "team"; "ptype"; "ai_lvl"; "pos"; "control"; "level"; "exp";
   "score"; "max_stamina"; "max_flow"; "stamina"; "flow"; "skill_cd";
   "awakened_until"].

(** * Properties *)

(** ** Comparison, [min] and [max] *)

Lemma Py_ltb_lt (a b : Q) : Py.ltb a b = true <-> a < b.
Proof.
  unfold Py.ltb. rewrite negb_true_iff. split; intros H.
  - apply Qnot_le_lt. intros Hle. apply Qle_bool_iff in Hle. congruence.
  - destruct (Qle_bool b a) eqn:E; [|reflexivity].
    apply Qle_bool_iff in E. lra.
Qed.

Lemma Py_ltb_ge (a b : Q) : Py.ltb a b = false <-> b <= a.
Proof. unfold Py.ltb. rewrite negb_false_iff. apply Qle_bool_iff. Qed.

(** Case analysis on a comparison, turning the boolean into an order
    fact in the context. *)
Ltac py_cases a b :=
  let E := fresh "E" in
  destruct (Py.ltb a b) eqn:E;
  [apply Py_ltb_lt in E | apply Py_ltb_ge in E].

Lemma Py_max_lb_l (a b : Q) : a <= Py.max a b.
Proof. unfold Py.max. py_cases a b; lra. Qed.

Lemma Py_max_lb_r (a b : Q) : b <= Py.max a b.
Proof. unfold Py.max. py_cases a b; lra. Qed.

Lemma Py_max_ub (a b c : Q) : a <= c -> b <= c -> Py.max a b <= c.
Proof. unfold Py.max. destruct (Py.ltb a b); auto. Qed.

Lemma Py_min_ub_l (a b : Q) : Py.min a b <= a.
Proof. unfold Py.min. py_cases b a; lra. Qed.

Lemma Py_min_ub_r (a b : Q) : Py.min a b <= b.
Proof. unfold Py.min. py_cases b a; lra. Qed.

Lemma Py_min_lb (a b c : Q) : c <= a -> c <= b -> c <= Py.min a b.
Proof. unfold Py.min. destruct (Py.ltb b a); auto. Qed.

(** ** Ball.update *)

(** The three outcomes of [Ball.update] in terms of the advanced
    horizontal position. *)
Lemma Ball_update_cases (b : Ball.t) (dt : Q) (bounds : Z * Z) :
  let x := fst (Ball.pos b) + fst (Ball.vel b) * dt * 60 in
  (x < 0 /\ snd (Ball.update b dt bounds) = Some "B")
  \/ (0 <= x /\ inject_Z (fst bounds) < x
      /\ snd (Ball.update b dt bounds) = Some "A")
  \/ (0 <= x /\ x <= inject_Z (fst bounds)
      /\ snd (Ball.update b dt bounds) = None).
Proof.
  intros x. unfold Ball.update. fold x.
  py_cases x 0; [left; split; [exact E | reflexivity] | right].
  py_cases (inject_Z (fst bounds)) x; [left | right]; simpl; auto.
Qed.

(** C1, as stated, fails twice over: a call that reports a goal leaves
    the advanced vertical position unclamped (here 5, below the radius
    8), and on a field lower than twice the radius the clamp ends at the
    radius, above [height - radius]. *)
Lemma C1_vertical_range_counterexample :
  (0 <= 1 # 60
   /\ vertical_in_range ball_leaving_left (800, 600)%Z
   /\ snd (Ball.update ball_leaving_left (1 # 60) (800, 600)%Z) = Some "B"
   /\ ~ vertical_in_range
          (fst (Ball.update ball_leaving_left (1 # 60) (800, 600)%Z))
          (800, 600)%Z)
  /\ (snd (Ball.update ball_mid_field (1 # 60) (800, 10)%Z) = None
      /\ ~ vertical_in_range
             (fst (Ball.update ball_mid_field (1 # 60) (800, 10)%Z))
             (800, 10)%Z).
Proof.
  unfold vertical_in_range. repeat split; try (vm_compute; congruence).
  - intros [H _]. vm_compute in H. apply H. reflexivity.
  - intros [_ H]. vm_compute in H. apply H. reflexivity.
Qed.

(** C1, amended: on a field at least twice the radius high, a call to
    [Ball.update] that reports no goal leaves the vertical position
    within [[radius, height - radius]], for every [dt]. *)
Theorem C1_vertical_range_no_goal (b : Ball.t) (dt : Q) (bounds : Z * Z) :
  (Ball.radius b <= snd bounds - Ball.radius b)%Z ->
  snd (Ball.update b dt bounds) = None ->
  vertical_in_range (fst (Ball.update b dt bounds)) bounds
  /\ Ball.radius (fst (Ball.update b dt bounds)) = Ball.radius b.
Proof.
  intros Hfit. unfold Ball.update, vertical_in_range.
  destruct (Py.ltb _ 0); [discriminate|].
  destruct (Py.ltb (inject_Z _) _); [discriminate|].
  intros _. simpl. rewrite Zle_Qle in Hfit.
  repeat split.
  - apply Py_max_lb_l.
  - apply Py_max_ub; [exact Hfit | apply Py_min_ub_l].
Qed.

Lemma C1_vertical_range_no_goal_witness :
  vertical_in_range
    (fst (Ball.update (Ball.mk (400, 5) (0, -5) 8 0.95) (1 # 60)
            (800, 600)%Z))
    (800, 600)%Z
  /\ Ball.radius
       (fst (Ball.update (Ball.mk (400, 5) (0, -5) 8 0.95) (1 # 60)
               (800, 600)%Z)) = 8%Z.
Proof.
  apply (C1_vertical_range_no_goal
           (Ball.mk (400, 5) (0, -5) 8 0.95) (1 # 60) (800, 600)%Z).
  - vm_compute. congruence.
  - reflexivity.
Defined.

(** C5: [Ball.update] moves the horizontal position to
    [x + vx * dt * 60] on every path and the vertical one to
    [y + vy * dt * 60], clamped when no goal is reported.  It returns
    ["B"] exactly when the advanced [x] is below 0, ["A"] exactly when it
    is not below 0 and above the width, and [None] otherwise, so that
    [x = 0] and [x = width] report nothing; on a field of non-negative
    width ["A"] is returned exactly when [x] is above the width. *)
Theorem C5_update_advances_and_reports (b : Ball.t) (dt : Q) (bounds : Z * Z) :
  let x := fst (Ball.pos b) + fst (Ball.vel b) * dt * 60 in
  let y := snd (Ball.pos b) + snd (Ball.vel b) * dt * 60 in
  let w := inject_Z (fst bounds) in
  let r := Ball.update b dt bounds in
  fst (Ball.pos (fst r)) = x
  /\ snd (Ball.pos (fst r)) =
       match snd r with
       | Some _ => y
       | None => Py.max (inject_Z (Ball.radius b))
                        (Py.min (inject_Z (snd bounds - Ball.radius b)) y)
       end
  /\ (snd r = Some "B" <-> x < 0)
  /\ (snd r = Some "A" <-> 0 <= x /\ w < x)
  /\ (snd r = None <-> 0 <= x /\ x <= w)
  /\ (x == 0 -> 0 <= w -> snd r = None)
  /\ (x == w -> 0 <= w -> snd r = None)
  /\ (0 <= w -> (snd r = Some "A" <-> w < x)).
Proof.
  intros x y w r.
  assert (Hpos : fst (Ball.pos (fst r)) = x
    /\ snd (Ball.pos (fst r)) =
       match snd r with
       | Some _ => y
       | None => Py.max (inject_Z (Ball.radius b))
                        (Py.min (inject_Z (snd bounds - Ball.radius b)) y)
       end).
  { subst r. unfold Ball.update. fold x y.
    destruct (Py.ltb x 0); [split; reflexivity|].
    destruct (Py.ltb (inject_Z (fst bounds)) x); split; reflexivity. }
  destruct Hpos as [Hx Hy].
  pose proof (Ball_update_cases b dt bounds) as Hc. simpl in Hc.
  fold x w r in Hc.
  split; [exact Hx|]. split; [exact Hy|].
  destruct Hc as [[H1 H2] | [(H1 & H2 & H3) | (H1 & H2 & H3)]];
    rewrite ?H2, ?H3;
    repeat split; intros; try discriminate; try reflexivity; try lra;
    try (destruct_and?; lra); auto.
Qed.

Lemma C5_update_advances_and_reports_witness :
  snd (Ball.update (Ball.mk (795, 100) (10, 0) 8 0.95) (1 # 60)
         (800, 600)%Z) = Some "A"
  /\ snd (Ball.update (Ball.mk (5, 100) (-10, 0) 8 0.95) (1 # 60)
            (800, 600)%Z) = Some "B"
  /\ snd (Ball.update (Ball.mk (790, 100) (10, 0) 8 0.95) (1 # 60)
            (800, 600)%Z) = None
  /\ snd (Ball.update (Ball.mk (10, 100) (-10, 0) 8 0.95) (1 # 60)
            (800, 600)%Z) = None.
Proof.
  split; [|split; [|split]].
  - pose proof (C5_update_advances_and_reports
                  (Ball.mk (795, 100) (10, 0) 8 0.95) (1 # 60) (800, 600)%Z)
      as H.
    cbv zeta in H. destruct H as (_ & _ & _ & _ & _ & _ & _ & H).
    apply H; vm_compute; [congruence | reflexivity].
  - pose proof (C5_update_advances_and_reports
                  (Ball.mk (5, 100) (-10, 0) 8 0.95) (1 # 60) (800, 600)%Z)
      as H.
    cbv zeta in H. destruct H as (_ & _ & H & _).
    apply H. vm_compute. reflexivity.
  - pose proof (C5_update_advances_and_reports
                  (Ball.mk (790, 100) (10, 0) 8 0.95) (1 # 60) (800, 600)%Z)
      as H.
    cbv zeta in H. destruct H as (_ & _ & _ & _ & _ & _ & H & _).
    apply H; vm_compute; [reflexivity | congruence].
  - pose proof (C5_update_advances_and_reports
                  (Ball.mk (10, 100) (-10, 0) 8 0.95) (1 # 60) (800, 600)%Z)
      as H.
    cbv zeta in H. destruct H as (_ & _ & _ & _ & _ & H & _).
    apply H; vm_compute; [reflexivity | congruence].
Defined.

(** C10: on every call to [Ball.update], for any [dt] and bounds, each
    velocity component afterwards is the component before times the
    friction coefficient, which the call leaves as it was: 0.95 for a
    ball built by the constructor.  A call that reports a goal keeps the
    advanced horizontal position, beyond the bound it crossed. *)
Theorem C10_update_friction (b : Ball.t) (dt : Q) (bounds : Z * Z) :
  let x := fst (Ball.pos b) + fst (Ball.vel b) * dt * 60 in
  let r := Ball.update b dt bounds in
  Ball.vel (fst r)
    = (fst (Ball.vel b) * Ball.friction b, snd (Ball.vel b) * Ball.friction b)
  /\ Ball.friction (fst r) = Ball.friction b
  /\ (Ball.friction b = 0.95 ->
      Ball.vel (fst r) = (fst (Ball.vel b) * 0.95, snd (Ball.vel b) * 0.95))
  /\ (forall x0 y0, Ball.friction (Ball.__init__ x0 y0) = 0.95)
  /\ (snd r = Some "B" ->
      fst (Ball.pos (fst r)) = x /\ fst (Ball.pos (fst r)) < 0)
  /\ (snd r = Some "A" ->
      fst (Ball.pos (fst r)) = x
      /\ inject_Z (fst bounds) < fst (Ball.pos (fst r))).
Proof.
  intros x r.
  assert (Hv : Ball.vel (fst r)
    = (fst (Ball.vel b) * Ball.friction b, snd (Ball.vel b) * Ball.friction b)
    /\ Ball.friction (fst r) = Ball.friction b
    /\ fst (Ball.pos (fst r)) = x).
  { subst r. unfold Ball.update. fold x.
    destruct (Py.ltb x 0); [repeat split|].
    destruct (Py.ltb (inject_Z (fst bounds)) x); repeat split. }
  destruct Hv as (Hv & Hf & Hx).
  pose proof (Ball_update_cases b dt bounds) as Hc. simpl in Hc.
  fold x r in Hc.
  split; [exact Hv|]. split; [exact Hf|].
  split; [intros Hk; rewrite Hv, Hk; reflexivity|].
  split; [reflexivity|].
  rewrite Hx.
  destruct Hc as [[H1 H2] | [(H1 & H2 & H3) | (H1 & H2 & H3)]];
    rewrite ?H2, ?H3; split; intros; try discriminate; auto.
Qed.

Lemma C10_update_friction_witness :
  let left := Ball.update ball_leaving_left (1 # 60) (800, 600)%Z in
  let right :=
    Ball.update (Ball.mk (795, 100) (10, 0) 8 0.95) (1 # 60) (800, 600)%Z in
  Ball.vel (fst left) = (-10 * 0.95, -5 * 0.95)
  /\ fst (Ball.pos (fst left)) < 0
  /\ inject_Z 800 < fst (Ball.pos (fst right)).
Proof.
  intros left right.
  pose proof (C10_update_friction ball_leaving_left (1 # 60) (800, 600)%Z)
    as H.
  cbv zeta in H. destruct H as (_ & _ & Hv & _ & Hb & _).
  pose proof (C10_update_friction (Ball.mk (795, 100) (10, 0) 8 0.95)
                (1 # 60) (800, 600)%Z) as H.
  cbv zeta in H. destruct H as (_ & _ & _ & _ & _ & Ha).
  split; [apply Hv; reflexivity|].
  split; [apply Hb; reflexivity | apply Ha; reflexivity].
Defined.

(** ** SkillSystem.can_use and SkillSystem.use *)

(** The four gates of [can_use], read off its early returns. *)
Lemma can_use_gates (s : SkillSystem.t) (p : Player.t) (name : string) :
  SkillSystem.can_use s p name = true
  <-> exists sk,
        SkillSystem.skills s !! name = Some sk
        /\ inject_Z (Skill.flow_cost sk) <= Player.flow p
        /\ inject_Z (Skill.stamina_cost sk) <= Player.stamina p
        /\ default 0 (Player.skill_cd p !! name) <= 0.
Proof.
  unfold SkillSystem.can_use.
  destruct (SkillSystem.skills s !! name) as [sk|]; split.
  - intros H. exists sk.
    py_cases (Player.flow p) (inject_Z (Skill.flow_cost sk));
      [discriminate|].
    py_cases (Player.stamina p) (inject_Z (Skill.stamina_cost sk));
      [discriminate|].
    py_cases 0 (default 0 (Player.skill_cd p !! name)); [discriminate|].
    auto.
  - intros (sk' & Hsk & Hf & Hs & Hc). injection Hsk as <-.
    py_cases (Player.flow p) (inject_Z (Skill.flow_cost sk)); [lra|].
    py_cases (Player.stamina p) (inject_Z (Skill.stamina_cost sk)); [lra|].
    py_cases 0 (default 0 (Player.skill_cd p !! name)); [lra|].
    reflexivity.
  - discriminate.
  - intros (sk & Hsk & _). discriminate.
Qed.

(** C4: [can_use] returns true exactly when the skill is registered, the
    player's flow and stamina reach the skill's costs, and the remaining
    cooldown for that skill, 0 when there is no entry, is at most 0. *)
Theorem C4_can_use_iff (s : SkillSystem.t) (p : Player.t) (name : string) :
  SkillSystem.can_use s p name = true
  <-> exists sk,
        SkillSystem.skills s !! name = Some sk
        /\ Player.flow p >= inject_Z (Skill.flow_cost sk)
        /\ Player.stamina p >= inject_Z (Skill.stamina_cost sk)
        /\ default 0 (Player.skill_cd p !! name) <= 0.
Proof. apply can_use_gates. Qed.

(** A refused [use] returns the player it was given. *)
Lemma use_refused (s : SkillSystem.t) (p : Player.t) (name : string)
    (now : Q) :
  SkillSystem.can_use s p name = false ->
  SkillSystem.use s p name now = (p, false).
Proof. intros H. unfold SkillSystem.use. rewrite H. reflexivity. Qed.

Lemma use_accepted (s : SkillSystem.t) (p : Player.t) (name : string)
    (now : Q) :
  SkillSystem.can_use s p name = true ->
  exists sk,
    SkillSystem.skills s !! name = Some sk
    /\ SkillSystem.use s p name now
       = (if SkillSystem.awaken_effect sk
          then Player.awaken (charged p name sk) now
          else charged p name sk, true).
Proof.
  intros H. unfold SkillSystem.use. rewrite H. simpl.
  apply can_use_gates in H as (sk & Hsk & _). exists sk.
  rewrite Hsk. split; [reflexivity|].
  fold (charged p name sk). destruct (SkillSystem.awaken_effect sk); reflexivity.
Qed.

(** While the cooldown entry of a skill is positive, the skill cannot be
    used. *)
Lemma can_use_cooling (s : SkillSystem.t) (p : Player.t) (name : string)
    (c : Q) :
  Player.skill_cd p !! name = Some c -> 0 < c ->
  SkillSystem.can_use s p name = false.
Proof.
  intros Hc Hpos. unfold SkillSystem.can_use.
  destruct (SkillSystem.skills s !! name) as [sk|]; [|reflexivity].
  destruct (Py.ltb (Player.flow p) _); [reflexivity|].
  destruct (Py.ltb (Player.stamina p) _); [reflexivity|].
  rewrite Hc. simpl.
  py_cases 0 c; [reflexivity | lra].
Qed.

(** The registry built by the constructor holds exactly the four
    built-in skills. *)
Lemma init_skills (name : string) (sk : Skill.t) :
  SkillSystem.skills SkillSystem.__init__ !! name = Some sk ->
  sk = Skill.mk "Power Shot" FLOW 30 10 5 {["mult" := EInt 2]}
  \/ sk = Skill.mk "Iron Tackle" STAMINA 0 40 8 {["boost" := EBool true]}
  \/ sk = Skill.mk "Field Vision" FLOW 40 20 10 {["buff" := EBool true]}
  \/ sk = Skill.mk "Awaken" ULTIMATE AI_MAX_FLOW 0 0
            {["awaken" := EBool true]}.
Proof.
  unfold SkillSystem.__init__, SkillSystem.register. simpl.
  rewrite !lookup_insert_Some, lookup_empty.
  intros H.
  repeat (destruct H as [[_ <-] | [_ H]]; [tauto|]).
  discriminate.
Qed.

(** Costs and cooldowns of the built-in skills are non-negative, and a
    cooldown that is not 0 is positive. *)
Lemma init_skills_nonneg (name : string) (sk : Skill.t) :
  SkillSystem.skills SkillSystem.__init__ !! name = Some sk ->
  (0 <= Skill.flow_cost sk)%Z /\ (0 <= Skill.stamina_cost sk)%Z
  /\ 0 <= Skill.cooldown sk
  /\ (~ Skill.cooldown sk == 0 -> 0 < Skill.cooldown sk).
Proof.
  intros H. apply init_skills in H.
  destruct_or?; subst; simpl; unfold AI_MAX_FLOW;
    (split; [lia|]); (split; [lia|]); (split; [lra|]); intros Hne; try lra.
Qed.

(** C3, as stated, fails for the Awaken skill: its stamina cost is 0, yet
    a successful use leaves stamina at [max_stamina] (100) instead of the
    90 the player had. *)
Lemma C3_use_awaken_counterexample :
  SkillSystem.can_use SkillSystem.__init__ player_full_flow "Awaken" = true
  /\ Skill.stamina_cost <$> (SkillSystem.skills SkillSystem.__init__ !! "Awaken")
     = Some 0%Z
  /\ snd (SkillSystem.use SkillSystem.__init__ player_full_flow "Awaken" 1000)
     = true
  /\ Player.stamina
       (fst (SkillSystem.use SkillSystem.__init__ player_full_flow "Awaken" 1000))
     = 100
  /\ ~ Player.stamina
         (fst (SkillSystem.use SkillSystem.__init__ player_full_flow "Awaken"
                 1000))
       == Player.stamina player_full_flow - inject_Z 0.
Proof.
  split; [reflexivity|]. split; [reflexivity|]. split; [reflexivity|].
  split; [reflexivity|]. vm_compute. discriminate.
Qed.

(** C3, amended: with the built-in registry, a [use] that [can_use]
    refuses returns false and the player unchanged; a [use] that
    [can_use] accepts returns true and sets the cooldown entry of the
    skill to the skill's cooldown, after which [can_use] refuses the
    skill unless that cooldown is 0.  For a skill without the awaken
    effect it takes exactly the flow cost from flow and the stamina cost
    from stamina; for a skill with the awaken effect the awaken
    transition then sets flow to 0, stamina to [max_stamina] and
    awakened-until to 10 seconds from now. *)
Theorem C3_use_spec (p : Player.t) (name : string) (now : Q) :
  let s := SkillSystem.__init__ in
  let p' := fst (SkillSystem.use s p name now) in
  (SkillSystem.can_use s p name = false ->
   SkillSystem.use s p name now = (p, false))
  /\ (SkillSystem.can_use s p name = true ->
      exists sk,
        SkillSystem.skills s !! name = Some sk
        /\ snd (SkillSystem.use s p name now) = true
        /\ Player.skill_cd p'
           = <[name := Skill.cooldown sk]> (Player.skill_cd p)
        /\ Player.skill_cd p' !! name = Some (Skill.cooldown sk)
        /\ (~ Skill.cooldown sk == 0 -> SkillSystem.can_use s p' name = false)
        /\ (SkillSystem.awaken_effect sk = false ->
            Player.flow p' = Player.flow p - inject_Z (Skill.flow_cost sk)
            /\ Player.stamina p'
               = Player.stamina p - inject_Z (Skill.stamina_cost sk)
            /\ Player.awakened_until p' = Player.awakened_until p)
        /\ (SkillSystem.awaken_effect sk = true ->
            Player.flow p' = 0
            /\ Player.stamina p' = Player.max_stamina p
            /\ Player.awakened_until p' = now + 10)).
Proof.
  intros s p'. split; [apply use_refused|].
  intros Hcan. subst p'.
  destruct (use_accepted s p name now Hcan) as (sk & Hsk & Huse).
  exists sk. rewrite Huse. simpl.
  assert (Hcd : Player.skill_cd
                  (if SkillSystem.awaken_effect sk
                   then Player.awaken (charged p name sk) now
                   else charged p name sk)
                = <[name := Skill.cooldown sk]> (Player.skill_cd p))
    by (destruct (SkillSystem.awaken_effect sk); reflexivity).
  split; [exact Hsk|]. split; [reflexivity|]. split; [exact Hcd|].
  split; [rewrite Hcd; apply lookup_insert_eq|].
  split.
  - intros Hne. apply (can_use_cooling s _ name (Skill.cooldown sk)).
    + rewrite Hcd. apply lookup_insert_eq.
    + apply (init_skills_nonneg name sk Hsk), Hne.
  - split; intros ->; simpl; auto.
Qed.

Lemma C3_use_spec_witness :
  let s := SkillSystem.__init__ in
  let shot := fst (SkillSystem.use s player_full_flow "Power Shot" 1000) in
  let woken := fst (SkillSystem.use s player_full_flow "Awaken" 1000) in
  SkillSystem.use s shot "Power Shot" 1001 = (shot, false)
  /\ snd (SkillSystem.use s player_full_flow "Power Shot" 1000) = true
  /\ Player.skill_cd shot !! "Power Shot" = Some 5
  /\ SkillSystem.can_use s shot "Power Shot" = false
  /\ Player.flow shot = 100 - inject_Z 30
  /\ Player.stamina shot = 90 - inject_Z 10
  /\ Player.flow woken = 0
  /\ Player.stamina woken = 100
  /\ Player.awakened_until woken = 1000 + 10.
Proof.
  intros s shot woken.
  destruct (C3_use_spec shot "Power Shot" 1001) as [Hno _].
  destruct (C3_use_spec player_full_flow "Power Shot" 1000) as [_ Hshot].
  destruct (Hshot eq_refl)
    as (sk & Hsk & Hret & _ & Hcd & Hcool & Hplain & _).
  destruct (C3_use_spec player_full_flow "Awaken" 1000) as [_ Hwake].
  destruct (Hwake eq_refl)
    as (sk' & Hsk' & _ & _ & _ & _ & _ & Hawaken).
  injection Hsk as <-. injection Hsk' as <-.
  split; [apply Hno; reflexivity|]. split; [exact Hret|].
  split; [exact Hcd|].
  split; [apply Hcool; vm_compute; discriminate|].
  destruct (Hplain eq_refl) as (Hf & Hs & _).
  destruct (Hawaken eq_refl) as (Hf' & Hs' & Hu').
  repeat (split; [assumption|]). assumption.
Defined.

(** ** Player.awaken *)

(** C9: whatever the resources were, [awaken] sets flow to 0, stamina to
    [max_stamina] and awakened-until to the invocation time plus 10
    seconds, which is strictly later than the invocation time. *)
Theorem C9_awaken_resets (p : Player.t) (now : Q) :
  Player.flow (Player.awaken p now) = 0
  /\ Player.stamina (Player.awaken p now) = Player.max_stamina p
  /\ Player.awakened_until (Player.awaken p now) = now + 10
  /\ now < Player.awakened_until (Player.awaken p now).
Proof. simpl. repeat split. lra. Qed.

(** ** The resource invariant *)

Section Operations.

Variable hypot : Q -> Q -> Q.

(** Steering moves the player and kicks the ball; it does not touch
    the resources. *)
Lemma ai_resources (p : Player.t) (dt : Q) (ball : Ball.t) (rnd now : Q) :
  let p' := fst (Player._ai hypot p dt ball rnd now) in
  Player.stamina p' = Player.stamina p
  /\ Player.max_stamina p' = Player.max_stamina p
  /\ Player.flow p' = Player.flow p
  /\ Player.max_flow p' = Player.max_flow p
  /\ Player.skill_cd p' = Player.skill_cd p.
Proof.
  unfold Player._ai.
  repeat match goal with
         | |- context [if ?c then _ else _] => destruct c
         end; simpl; auto.
Qed.

Lemma update_resources (p : Player.t) (dt : Q) (ball : Ball.t)
    (rnd now : Q) :
  let p' := fst (Player.update hypot p dt ball rnd now) in
  Player.stamina p' = Player.stamina p
  /\ Player.max_stamina p' = Player.max_stamina p
  /\ Player.flow p'
     = Py.min (Player.max_flow p) (Player.flow p + dt * 5)
  /\ Player.max_flow p' = Player.max_flow p
  /\ Player.skill_cd p'
     = (fun c => Py.max 0 (c - dt)) <$> Player.skill_cd p.
Proof.
  unfold Player.update. cbv zeta.
  match goal with
  | |- context [if ?c then _ else _] => destruct c
  end; [|simpl; auto].
  match goal with
  | |- context [Player._ai hypot ?q dt ball rnd now] =>
      destruct (ai_resources q dt ball rnd now)
        as (H1 & H2 & H3 & H4 & H5)
  end.
  rewrite H1, H2, H3, H4, H5. simpl. auto.
Qed.

Lemma update_preserves (p : Player.t) (dt : Q) (ball : Ball.t)
    (rnd now : Q) :
  0 <= dt -> resources_ok p ->
  resources_ok (fst (Player.update hypot p dt ball rnd now)).
Proof.
  intros Hdt ((Hs0 & Hs1) & (Hf0 & Hf1) & Hcd).
  destruct (update_resources p dt ball rnd now)
    as (H1 & H2 & H3 & H4 & H5).
  unfold resources_ok. rewrite H1, H2, H3, H4, H5.
  split; [auto|]. split.
  - split; [apply Py_min_lb; lra | apply Py_min_ub_l].
  - apply map_Forall_fmap. intros k c _. simpl. apply Py_max_lb_l.
Qed.

Lemma awaken_preserves (p : Player.t) (now : Q) :
  resources_ok p -> resources_ok (Player.awaken p now).
Proof.
  intros ((Hs0 & Hs1) & (Hf0 & Hf1) & Hcd).
  unfold resources_ok. simpl.
  split; [split; lra|]. split; [split; lra|]. exact Hcd.
Qed.

Lemma use_preserves (p : Player.t) (name : string) (now : Q) :
  resources_ok p ->
  resources_ok (fst (SkillSystem.use SkillSystem.__init__ p name now)).
Proof.
  intros Hok.
  destruct (SkillSystem.can_use SkillSystem.__init__ p name) eqn:Hcan.
  - destruct (use_accepted _ p name now Hcan) as (sk & Hsk & ->).
    apply can_use_gates in Hcan as (sk' & Hsk' & Hf & Hs & _).
    rewrite Hsk in Hsk'. injection Hsk' as <-.
    destruct (init_skills_nonneg name sk Hsk) as (Hfc & Hsc & Hc & _).
    rewrite Zle_Qle in Hfc, Hsc.
    destruct Hok as ((Hs0 & Hs1) & (Hf0 & Hf1) & Hcd).
    assert (Hch : resources_ok (charged p name sk)).
    { change (inject_Z 0) with 0 in Hfc, Hsc.
      unfold resources_ok. simpl.
      split; [split; lra|]. split; [split; lra|].
      apply map_Forall_insert_2; assumption. }
    simpl. destruct (SkillSystem.awaken_effect sk);
      [apply awaken_preserves|]; exact Hch.
  - rewrite (use_refused _ p name now Hcan). exact Hok.
Qed.

Lemma apply_op_preserves (p : Player.t) (o : op) :
  op_admissible o -> resources_ok p -> resources_ok (apply_op hypot p o).
Proof.
  destruct o as [dt ball rnd now | name now | now]; simpl; intros Ho Hok.
  - apply update_preserves; assumption.
  - apply use_preserves; assumption.
  - apply awaken_preserves; assumption.
Qed.

End Operations.

(** C6: starting from any player whose stamina and flow lie within
    [[0, max]] and whose cooldowns are non-negative, the same holds after
    any sequence of operations: ticks of [Player.update] with [dt >= 0],
    calls of [SkillSystem.use] and calls of [Player.awaken], in any
    number and order. *)
Theorem C6_resources_preserved (hypot : Q -> Q -> Q) (os : list op)
    (p : Player.t) :
  resources_ok p -> Forall op_admissible os ->
  resources_ok (apply_ops hypot p os).
Proof.
  intros Hok Hos. revert p Hok.
  induction Hos as [|o os Ho _ IH]; intros p Hok; simpl.
  - exact Hok.
  - apply IH, apply_op_preserves; assumption.
Qed.

Lemma C6_resources_preserved_witness :
  resources_ok
    (apply_ops (fun _ _ => 0) player_full_flow
       [Use "Power Shot" 1000; Tick (1 # 60) (Ball.__init__ 400 300) (1 # 2) 1001;
        Use "Awaken" 1002; Awaken 1003; Tick (1 # 60) (Ball.__init__ 400 300) 0 1004]).
Proof.
  apply C6_resources_preserved.
  - unfold resources_ok, player_full_flow. simpl.
    split; [split; lra|]. split; [split; lra|].
    apply map_Forall_singleton. lra.
  - repeat constructor; simpl; lra.
Defined.

(** ** Player snapshots *)

(** C7: [from_dict] applied to [to_dict] of any player returns, without
    raising, a player with the same name, team, role, AI level, control
    mode, position, level, experience, score, resource maxima, stamina,
    flow, cooldown map and awakened-until time; the size, which is not
    persisted, is the constructor's 24. *)
Theorem C7_snapshot_round_trip (p : Player.t) :
  Player.from_dict (Player.to_dict p)
  = Ok {| Player.name := Player.name p;
          Player.team := Player.team p;
          Player.ptype := Player.ptype p;
          Player.ai_lvl := Player.ai_lvl p;
          Player.control := Player.control p;
          Player.pos := Player.pos p;
          Player.size := 24;
          Player.level := Player.level p;
          Player.exp := Player.exp p;
          Player.score := Player.score p;
          Player.max_stamina := Player.max_stamina p;
          Player.max_flow := Player.max_flow p;
          Player.stamina := Player.stamina p;
          Player.flow := Player.flow p;
          Player.skill_cd := Player.skill_cd p;
          Player.awakened_until := Player.awakened_until p |}.
Proof.
  destruct p as [nm tm pt lvl ct [x y] sz lv ex sc ms mf st fl cd au].
  destruct pt, ct; vm_compute; reflexivity.
Qed.

Lemma get_num (d : gmap string pyval) (key : string) (dflt : Q) :
  optional d key is_num = true ->
  as_num (get d key (VNum dflt)) = Ok (loaded_num d key dflt).
Proof.
  unfold optional, get, loaded_num.
  destruct (d !! key) as [[]|]; simpl; congruence.
Qed.

Lemma get_dict (d : gmap string pyval) (key : string) (dflt : gmap string Q) :
  optional d key is_dict = true ->
  as_dict (get d key (VDict dflt)) = Ok (loaded_dict d key dflt).
Proof.
  unfold optional, get, loaded_dict.
  destruct (d !! key) as [[]|]; simpl; congruence.
Qed.

Lemma get_ptype (d : gmap string pyval) (key : string) (dflt : PlayerType) :
  optional d key is_ptype = true ->
  PlayerType_call (get d key (VStr (PlayerType_value dflt)))
  = Ok (loaded_ptype d key dflt).
Proof.
  unfold optional, get, loaded_ptype.
  destruct (d !! key) as [[s| | |]|]; simpl; try congruence.
  - destruct (PlayerType_of_value s); simpl; congruence.
  - destruct dflt; reflexivity.
Qed.

Lemma get_control (d : gmap string pyval) (key : string)
    (dflt : ControlType) :
  optional d key is_control = true ->
  ControlType_call (get d key (VStr (ControlType_value dflt)))
  = Ok (loaded_control d key dflt).
Proof.
  unfold optional, get, loaded_control.
  destruct (d !! key) as [[s| | |]|]; simpl; try congruence.
  - destruct (ControlType_of_value s); simpl; congruence.
  - destruct dflt; reflexivity.
Qed.

Lemma get_pos (d : gmap string pyval) (key : string) (x0 y0 : Q) :
  optional d key is_pos = true ->
  exists xs,
    tuple (get d key (VList [x0; y0])) = Ok xs
    /\ forall nm tm pt lvl ct,
         Player.__init__ nm tm pt lvl xs ct
         = Ok {| Player.name := nm; Player.team := tm; Player.ptype := pt;
                 Player.ai_lvl := lvl; Player.control := ct;
                 Player.pos := loaded_pos d key (x0, y0);
                 Player.size := 24;
                 Player.level := 1; Player.exp := 0; Player.score := 0;
                 Player.max_stamina := 100;
                 Player.max_flow := inject_Z AI_MAX_FLOW;
                 Player.stamina := 100; Player.flow := 0;
                 Player.skill_cd := ∅; Player.awakened_until := 0 |}.
Proof.
  unfold optional, get, loaded_pos.
  destruct (d !! key) as [[| |[|x [|y xs]]|]|]; simpl; try congruence;
    intros _; eexists; (split; [reflexivity|]); reflexivity.
Qed.

Lemma from_dict_typed (d : gmap string pyval) (nm tm : string) :
  d !! "name" = Some (VStr nm) -> d !! "team" = Some (VStr tm) ->
  optional_fields_typed d = true ->
  Player.from_dict d = Ok (loaded d nm tm).
Proof.
  intros Hn Ht Hty. unfold optional_fields_typed in Hty.
  repeat (apply andb_prop in Hty as [Hty ?]).
  destruct (get_pos d "pos" 0 0) as (xs & Hxs & Hinit); [assumption|].
  unfold Player.from_dict, getitem.
  rewrite Hn, Ht, Hxs, get_ptype, get_control, !get_num, get_dict
    by assumption.
  cbn [mbind mret outcome_bind outcome_ret as_str].
  rewrite Hinit.
  cbn [mbind mret outcome_bind outcome_ret].
  rewrite get_num by assumption.
  reflexivity.
Qed.

(** C2, as stated, fails: the name and the team have no default, and a
    snapshot without either raises [KeyError]. *)
Lemma C2_missing_identity_counterexample :
  Player.from_dict (delete "name" (Player.to_dict player_full_flow))
  = Raise (KeyError "name")
  /\ Player.from_dict (delete "team" (Player.to_dict player_full_flow))
     = Raise (KeyError "team").
Proof. split; vm_compute; reflexivity. Qed.

(** C2, amended: [from_dict] requires the name and the team, raising
    [KeyError] when either is absent, and applies a default for every
    other missing field: role striker, AI level 1, position (0, 0),
    control AI, level 1, experience and score 0, maxima 100, stamina the
    loaded [max_stamina], flow 0, no cooldowns, awakened-until 0.
    Loading a snapshot that has a name and a team, whose present entries
    have the types [to_dict] writes, never raises, whichever of the other
    fields are absent. *)
Theorem C2_from_dict_defaults (d : gmap string pyval) :
  (d !! "name" = None -> Player.from_dict d = Raise (KeyError "name"))
  /\ (forall nm, d !! "name" = Some (VStr nm) -> d !! "team" = None ->
      Player.from_dict d = Raise (KeyError "team"))
  /\ (forall nm tm,
      d !! "name" = Some (VStr nm) -> d !! "team" = Some (VStr tm) ->
      optional_fields_typed d = true ->
      exists p,
        Player.from_dict d = Ok p
        /\ p = loaded d nm tm
        /\ Player.name p = nm /\ Player.team p = tm
        /\ (d !! "ptype" = None -> Player.ptype p = STRIKER)
        /\ (d !! "ai_lvl" = None -> Player.ai_lvl p = 1)
        /\ (d !! "pos" = None -> Player.pos p = (0, 0))
        /\ (d !! "control" = None -> Player.control p = AI)
        /\ (d !! "level" = None -> Player.level p = 1)
        /\ (d !! "exp" = None -> Player.exp p = 0)
        /\ (d !! "score" = None -> Player.score p = 0)
        /\ (d !! "max_stamina" = None -> Player.max_stamina p = 100)
        /\ (d !! "max_flow" = None -> Player.max_flow p = 100)
        /\ (d !! "stamina" = None -> Player.stamina p = Player.max_stamina p)
        /\ (d !! "flow" = None -> Player.flow p = 0)
        /\ (d !! "skill_cd" = None -> Player.skill_cd p = ∅)
        /\ (d !! "awakened_until" = None -> Player.awakened_until p = 0)).
Proof.
  split; [|split].
  - intros Hn. unfold Player.from_dict, getitem. rewrite Hn. reflexivity.
  - intros nm Hn Ht. unfold Player.from_dict, getitem. rewrite Hn, Ht.
    reflexivity.
  - intros nm tm Hn Ht Hty. exists (loaded d nm tm).
    split; [apply from_dict_typed; assumption|].
    unfold loaded, loaded_num, loaded_dict, loaded_pos, loaded_ptype,
      loaded_control. simpl.
    repeat (split; [try reflexivity; intros ->; reflexivity|]).
    intros ->; reflexivity.
Qed.

Lemma C2_from_dict_defaults_witness :
  Player.from_dict (∅ : gmap string pyval) = Raise (KeyError "name")
  /\ Player.from_dict ({["name" := VStr "Alex"]} : gmap string pyval)
     = Raise (KeyError "team")
  /\ exists p,
       Player.from_dict snapshot_identity_only = Ok p
       /\ Player.ptype p = STRIKER /\ Player.control p = AI
       /\ Player.stamina p = Player.max_stamina p /\ Player.flow p = 0.
Proof.
  split; [|split].
  - destruct (C2_from_dict_defaults ∅) as (H & _).
    apply H. reflexivity.
  - destruct (C2_from_dict_defaults {["name" := VStr "Alex"]}) as (_ & H & _).
    apply (H "Alex"); reflexivity.
  - destruct (C2_from_dict_defaults snapshot_identity_only) as (_ & _ & H).
    destruct (H "Alex" "A" eq_refl eq_refl eq_refl)
      as (p & Hp & _ & _ & _ & Hpt & _ & _ & Hct & _ & _ & _ & _ & _
          & Hst & Hfl & _).
    exists p. split; [exact Hp|].
    split; [apply Hpt; reflexivity|]. split; [apply Hct; reflexivity|].
    split; [apply Hst; reflexivity | apply Hfl; reflexivity].
Defined.

(** ** The goal state of the engine *)

(** C8: when [_goal_loop] takes the engine from the goal state to the
    playing state, more than 2 seconds, hence at least 2, have passed
    since the recorded goal time, and the ball it leaves is at
    [(SCREEN_W / 2, SCREEN_H / 2)] with zero velocity; up to 2 seconds
    after the goal the engine stays as it is. *)
Theorem C8_goal_to_playing (g : GameEngine.t) (now : Q) :
  GameEngine.state g = GOAL ->
  (GameEngine.state (GameEngine._goal_loop g now) = PLAYING ->
   2 < now - GameEngine.goal_time g
   /\ 2 <= now - GameEngine.goal_time g
   /\ fst (Ball.pos (GameEngine.ball (GameEngine._goal_loop g now)))
      == inject_Z SCREEN_W / 2
   /\ snd (Ball.pos (GameEngine.ball (GameEngine._goal_loop g now)))
      == inject_Z SCREEN_H / 2
   /\ Ball.vel (GameEngine.ball (GameEngine._goal_loop g now)) = (0, 0))
  /\ (now - GameEngine.goal_time g <= 2 -> GameEngine._goal_loop g now = g)
  /\ (2 < now - GameEngine.goal_time g ->
      GameEngine.state (GameEngine._goal_loop g now) = PLAYING).
Proof.
  intros Hg. unfold GameEngine._goal_loop.
  py_cases 2 (now - GameEngine.goal_time g); simpl.
  - split; [|split]; [|intros; lra|reflexivity].
    intros _. split; [exact E|]. split; [lra|].
    split; [reflexivity|]. split; reflexivity.
  - split; [|split]; [|reflexivity|intros; lra].
    rewrite Hg. discriminate.
Qed.

Lemma C8_goal_to_playing_witness :
  GameEngine._goal_loop engine_after_goal (203 # 2) = engine_after_goal
  /\ GameEngine.state (GameEngine._goal_loop engine_after_goal (205 # 2))
     = PLAYING
  /\ Ball.vel (GameEngine.ball
                 (GameEngine._goal_loop engine_after_goal (205 # 2)))
     = (0, 0).
Proof.
  destruct (C8_goal_to_playing engine_after_goal (203 # 2) eq_refl)
    as (_ & Hstay & _).
  destruct (C8_goal_to_playing engine_after_goal (205 # 2) eq_refl)
    as (Hball & _ & Hgo).
  split; [|split].
  - apply Hstay. vm_compute. discriminate.
  - apply Hgo. vm_compute. reflexivity.
  - apply Hball, Hgo. vm_compute. reflexivity.
Defined.

(** ** The scenarios of the test suite *)

(** [test_ball_goals_and_bounce]: a ball leaving on the left reports
    ["B"], one leaving on the right reports ["A"], and one moving up
    from [y = 5] reports nothing and ends at the radius. *)
Example test_ball_goals_and_bounce :
  snd (Ball.update (Ball.mk (5, 100) (-10, 0) 8 0.95) (1 # 60) (800, 600)%Z)
  = Some "B"
  /\ snd (Ball.update (Ball.mk (795, 100) (10, 0) 8 0.95) (1 # 60)
            (800, 600)%Z) = Some "A"
  /\ Ball.update (Ball.mk (400, 5) (0, -5) 8 0.95) (1 # 60) (800, 600)%Z
     = (Ball.mk (400 + 0 * (1 # 60) * 60, 8) (0 * 0.95, -5 * 0.95) 8 0.95,
        None).
Proof. split; [|split]; reflexivity. Qed.

(** [test_skill_system], from its second step on: with flow 40 and
    stamina 50, Field Vision can be used, its use succeeds and sets the
    cooldown entry to the skill's cooldown, and it cannot be used again
    at once.  (With the flow of 50 the test starts from, [can_use]
    already holds.) *)
Example test_skill_system :
  let ss := SkillSystem.__init__ in
  let player flow :=
    {| Player.name := "Test"; Player.team := "A"; Player.ptype := STRIKER;
       Player.ai_lvl := 1; Player.control := KEYBOARD;
       Player.pos := (100, 100); Player.size := 24;
       Player.level := 1; Player.exp := 0; Player.score := 0;
       Player.max_stamina := 100; Player.max_flow := 100;
       Player.stamina := 50; Player.flow := flow;
       Player.skill_cd := ∅; Player.awakened_until := 0 |} in
  let used := SkillSystem.use ss (player 40) "Field Vision" 0 in
  SkillSystem.can_use ss (player 50) "Field Vision" = true
  /\ SkillSystem.can_use ss (player 40) "Field Vision" = true
  /\ snd used = true
  /\ Player.skill_cd (fst used) !! "Field Vision"
     = Skill.cooldown <$> (SkillSystem.skills ss !! "Field Vision")
  /\ SkillSystem.can_use ss (fst used) "Field Vision" = false.
Proof. vm_compute. repeat split. Qed.

(** [test_player_awaken]: from flow 100 and stamina 10, [awaken] leaves
    flow 0, stamina at the maximum and a positive awakened-until, here
    with the clock at 1000. *)
Example test_player_awaken :
  let now := 1000 in
  let player :=
    {| Player.name := "P"; Player.team := "A"; Player.ptype := MIDFIELDER;
       Player.ai_lvl := 1; Player.control := AI;
       Player.pos := (0, 0); Player.size := 24;
       Player.level := 1; Player.exp := 0; Player.score := 0;
       Player.max_stamina := 100; Player.max_flow := 100;
       Player.stamina := 10; Player.flow := 100;
       Player.skill_cd := ∅; Player.awakened_until := 0 |} in
  Player.flow (Player.awaken player now) = 0
  /\ Player.stamina (Player.awaken player now) = Player.max_stamina player
  /\ 0 < Player.awakened_until (Player.awaken player now).
Proof. simpl. split; [|split]; reflexivity. Qed.

(** * Further properties *)

(** ** Ball.update over several frames *)

Lemma Ball_update_attrs (b : Ball.t) (dt : Q) (bounds : Z * Z) :
  Ball.vel (fst (Ball.update b dt bounds))
  = (fst (Ball.vel b) * Ball.friction b, snd (Ball.vel b) * Ball.friction b)
  /\ Ball.radius (fst (Ball.update b dt bounds)) = Ball.radius b
  /\ Ball.friction (fst (Ball.update b dt bounds)) = Ball.friction b.
Proof.
  unfold Ball.update.
  destruct (Py.ltb _ 0); [repeat split|].
  destruct (Py.ltb (inject_Z _) _); repeat split.
Qed.

(** X1: after any number of calls of [Ball.update], whatever the frame
    times and whether or not goals were reported, each velocity
    component is the initial one times the friction to the power of the
    number of calls; radius and friction are as they were. *)
Theorem X1_velocity_decays_geometrically (dts : list Q) (b : Ball.t)
    (bounds : Z * Z) :
  fst (Ball.vel (Ball_updates b dts bounds))
  == fst (Ball.vel b) * Qpow (Ball.friction b) (length dts)
  /\ snd (Ball.vel (Ball_updates b dts bounds))
     == snd (Ball.vel b) * Qpow (Ball.friction b) (length dts)
  /\ Ball.radius (Ball_updates b dts bounds) = Ball.radius b
  /\ Ball.friction (Ball_updates b dts bounds) = Ball.friction b.
Proof.
  revert b. induction dts as [|dt dts IH]; intros b; simpl.
  - repeat split; ring.
  - destruct (Ball_update_attrs b dt bounds) as (Hv & Hr & Hf).
    destruct (IH (fst (Ball.update b dt bounds))) as (Hx & Hy & Hr' & Hf').
    unfold Ball_updates in *. simpl.
    rewrite Hx, Hy, Hr', Hf', Hv, Hr, Hf. simpl.
    repeat split; ring.
Qed.

(** X2: when no goal is reported on a field at least twice the radius
    high, the vertical position ends at the advanced value if that lies
    in [[radius, height - radius]], at the radius if it is below, and at
    [height - radius] if it is above. *)
Theorem X2_vertical_clamp_values (b : Ball.t) (dt : Q) (bounds : Z * Z) :
  let y := snd (Ball.pos b) + snd (Ball.vel b) * dt * 60 in
  let lo := inject_Z (Ball.radius b) in
  let hi := inject_Z (snd bounds - Ball.radius b) in
  let y' := snd (Ball.pos (fst (Ball.update b dt bounds))) in
  (Ball.radius b <= snd bounds - Ball.radius b)%Z ->
  snd (Ball.update b dt bounds) = None ->
  (lo <= y -> y <= hi -> y' == y)
  /\ (y < lo -> y' = lo)
  /\ (hi < y -> y' = hi).
Proof.
  intros y lo hi y' Hfit. subst y'. unfold Ball.update. fold y lo hi.
  destruct (Py.ltb _ 0); [discriminate|].
  destruct (Py.ltb (inject_Z _) _); [discriminate|].
  intros _. simpl.
  assert (Hle : lo <= hi) by (subst lo hi; rewrite <- Zle_Qle; exact Hfit).
  assert (Heq : hi <= lo -> lo = hi).
  { intros H. subst lo hi. f_equal. apply inject_Z_injective.
    apply Qle_antisym; assumption. }
  unfold Py.max, Py.min.
  py_cases y hi; [py_cases lo y | py_cases lo hi];
    (split; [|split]); intros;
    try reflexivity; try lra; try (exfalso; lra); auto.
Qed.

Lemma X2_vertical_clamp_values_witness :
  snd (Ball.pos (fst (Ball.update (Ball.mk (400, 590) (0, 5) 8 0.95) (1 # 60)
                        (800, 600)%Z))) = inject_Z (600 - 8)
  /\ snd (Ball.pos (fst (Ball.update (Ball.mk (400, 10) (0, -5) 8 0.95)
                           (1 # 60) (800, 600)%Z))) = inject_Z 8
  /\ snd (Ball.pos (fst (Ball.update (Ball.mk (400, 300) (0, 5) 8 0.95)
                           (1 # 60) (800, 600)%Z))) == 305.
Proof.
  pose proof (X2_vertical_clamp_values (Ball.mk (400, 590) (0, 5) 8 0.95)
                (1 # 60) (800, 600)%Z) as H1.
  pose proof (X2_vertical_clamp_values (Ball.mk (400, 10) (0, -5) 8 0.95)
                (1 # 60) (800, 600)%Z) as H2.
  pose proof (X2_vertical_clamp_values (Ball.mk (400, 300) (0, 5) 8 0.95)
                (1 # 60) (800, 600)%Z) as H3.
  cbv zeta in H1, H2, H3.
  destruct H1 as (_ & _ & H1); [vm_compute; congruence | reflexivity |].
  destruct H2 as (_ & H2 & _); [vm_compute; congruence | reflexivity |].
  destruct H3 as (H3 & _ & _); [vm_compute; congruence | reflexivity |].
  split; [apply H1; reflexivity|].
  split; [apply H2; reflexivity|].
  rewrite H3; [reflexivity | vm_compute; congruence | vm_compute; congruence].
Defined.

(** X3: a ball at rest inside the field, its centre between the left
    and right edges and within the vertical range, stays where it is:
    [Ball.update] reports no goal, the position is unchanged and the
    velocity is still zero, for every frame time. *)
Theorem X3_ball_at_rest_stays (b : Ball.t) (dt : Q) (bounds : Z * Z) :
  fst (Ball.vel b) == 0 -> snd (Ball.vel b) == 0 ->
  0 <= fst (Ball.pos b) -> fst (Ball.pos b) <= inject_Z (fst bounds) ->
  vertical_in_range b bounds ->
  snd (Ball.update b dt bounds) = None
  /\ fst (Ball.pos (fst (Ball.update b dt bounds))) == fst (Ball.pos b)
  /\ snd (Ball.pos (fst (Ball.update b dt bounds))) == snd (Ball.pos b)
  /\ fst (Ball.vel (fst (Ball.update b dt bounds))) == 0
  /\ snd (Ball.vel (fst (Ball.update b dt bounds))) == 0
  /\ vertical_in_range (fst (Ball.update b dt bounds)) bounds.
Proof.
  intros Hvx Hvy Hx0 Hxw [Hlo Hhi].
  assert (Ex : fst (Ball.pos b) + fst (Ball.vel b) * dt * 60
               == fst (Ball.pos b)) by (rewrite Hvx; ring).
  assert (Ey : snd (Ball.pos b) + snd (Ball.vel b) * dt * 60
               == snd (Ball.pos b)) by (rewrite Hvy; ring).
  unfold vertical_in_range, Ball.update.
  py_cases (fst (Ball.pos b) + fst (Ball.vel b) * dt * 60) 0; [lra|].
  py_cases (inject_Z (fst bounds))
           (fst (Ball.pos b) + fst (Ball.vel b) * dt * 60); [lra|].
  simpl. unfold Py.max, Py.min.
  py_cases (snd (Ball.pos b) + snd (Ball.vel b) * dt * 60)
           (inject_Z (snd bounds - Ball.radius b));
    [py_cases (inject_Z (Ball.radius b))
              (snd (Ball.pos b) + snd (Ball.vel b) * dt * 60)
    |py_cases (inject_Z (Ball.radius b))
              (inject_Z (snd bounds - Ball.radius b))];
    (split; [reflexivity|]); (split; [exact Ex|]);
    (split; [lra|]); (split; [rewrite Hvx; ring|]);
    (split; [rewrite Hvy; ring|]); split; lra.
Qed.

Lemma X3_ball_at_rest_stays_witness :
  snd (Ball.update (Ball.__init__ 400 300) (1 # 60) (800, 600)%Z) = None
  /\ fst (Ball.pos (fst (Ball.update (Ball.__init__ 400 300) (1 # 60)
                           (800, 600)%Z))) == 400.
Proof.
  pose proof (X3_ball_at_rest_stays (Ball.__init__ 400 300) (1 # 60)
                (800, 600)%Z) as H.
  destruct H as (H1 & H2 & _).
  - reflexivity.
  - reflexivity.
  - vm_compute. congruence.
  - vm_compute. congruence.
  - split; vm_compute; congruence.
  - split; [exact H1 | exact H2].
Defined.

(** ** Steering *)

Section SteeringFacts.

Variable hypot : Q -> Q -> Q.

(** The divisor of [_move] is never zero. *)
Lemma move_divisor_nonzero (h : Q) : ~ Py.or_else h 1 == 0.
Proof.
  unfold Py.or_else. destruct (Qeq_bool h 0) eqn:E.
  - intros H. discriminate H.
  - apply Qeq_bool_neq in E. exact E.
Qed.

Lemma ai_effects (p : Player.t) (dt : Q) (ball : Ball.t) (rnd now : Q) :
  let r := Player._ai hypot p dt ball rnd now in
  (fst r = p \/ snd r = ball)
  /\ fst r = Player.set_pos p (Player.pos (fst r))
  /\ Ball.pos (snd r) = Ball.pos ball
  /\ Ball.radius (snd r) = Ball.radius ball
  /\ Ball.friction (snd r) = Ball.friction ball
  /\ (Player.ptype p = DEFENDER -> snd r = ball).
Proof.
  unfold Player._ai. destruct p; simpl.
  repeat match goal with
         | |- context [if ?c then _ else _] => destruct c eqn:?
         end; simpl; repeat split; auto; intros ->; discriminate.
Qed.

End SteeringFacts.

(** X4: [_ai] either moves the player or kicks the ball, never both in
    one call; it changes nothing of the player but the position and
    nothing of the ball but the velocity, and a defender never touches
    the ball. *)
Theorem X4_ai_moves_or_kicks (hypot : Q -> Q -> Q) (p : Player.t) (dt : Q)
    (ball : Ball.t) (rnd now : Q) :
  let r := Player._ai hypot p dt ball rnd now in
  (fst r = p \/ snd r = ball)
  /\ fst r = Player.set_pos p (Player.pos (fst r))
  /\ Ball.pos (snd r) = Ball.pos ball
  /\ Ball.radius (snd r) = Ball.radius ball
  /\ Ball.friction (snd r) = Ball.friction ball
  /\ (Player.ptype p = DEFENDER -> snd r = ball).
Proof. apply ai_effects. Qed.

Lemma X4_ai_moves_or_kicks_witness :
  snd (Player._ai (fun _ _ => 5)
         (Player_new "Lee" "A" DEFENDER 7 100 100 AI) (1 # 60)
         (Ball.__init__ 400 300) (1 # 2) 1000)
  = Ball.__init__ 400 300.
Proof.
  apply (X4_ai_moves_or_kicks (fun _ _ => 5)
           (Player_new "Lee" "A" DEFENDER 7 100 100 AI) (1 # 60)
           (Ball.__init__ 400 300) (1 # 2) 1000).
  reflexivity.
Defined.

(** X5: where [math.hypot] returns the length [h] of the offset to the
    target, with [h * h = dx * dx + dy * dy] and [h] not zero, one
    [_move] displaces the player by exactly its speed,
    [2 + 0.3 * ai_lvl], plus 2 while awakened, whatever the distance to
    the target. *)
Theorem X5_move_step_length (hypot : Q -> Q -> Q) (p : Player.t)
    (target : Q * Q) (now : Q) :
  let dx := fst target - fst (Player.pos p) in
  let dy := snd target - snd (Player.pos p) in
  let spd := 2 + Player.ai_lvl p * 0.3
             + (if Py.ltb now (Player.awakened_until p) then 2 else 0) in
  let p' := Player._move hypot p target now in
  let sx := fst (Player.pos p') - fst (Player.pos p) in
  let sy := snd (Player.pos p') - snd (Player.pos p) in
  hypot dx dy * hypot dx dy == dx * dx + dy * dy ->
  ~ hypot dx dy == 0 ->
  sx * sx + sy * sy == spd * spd.
Proof.
  intros dx dy spd p' sx sy Hh Hnz.
  subst sx sy p'. unfold Player._move. simpl. fold dx dy spd.
  unfold Py.or_else.
  destruct (Qeq_bool (hypot dx dy) 0) eqn:E.
  - apply Qeq_bool_iff in E. contradiction.
  - set (h := hypot dx dy) in *.
    assert (H1 : (fst (Player.pos p) + dx / h * spd - fst (Player.pos p))
                 * (fst (Player.pos p) + dx / h * spd - fst (Player.pos p))
                 + (snd (Player.pos p) + dy / h * spd - snd (Player.pos p))
                   * (snd (Player.pos p) + dy / h * spd - snd (Player.pos p))
                 == (dx * dx + dy * dy) * (spd * spd) / (h * h))
      by (field; exact Hnz).
    rewrite H1, <- Hh. field. exact Hnz.
Qed.

Lemma X5_move_step_length_witness :
  let p := Player_new "Sam" "A" MIDFIELDER 5 100 100 AI in
  let p' := Player._move (fun _ _ => 5) p (103, 104) 1000 in
  (fst (Player.pos p') - 100) * (fst (Player.pos p') - 100)
  + (snd (Player.pos p') - 100) * (snd (Player.pos p') - 100)
  == (2 + 5 * 0.3 + 0) * (2 + 5 * 0.3 + 0).
Proof.
  intros p p'.
  apply (X5_move_step_length (fun _ _ => 5) p (103, 104) 1000).
  - reflexivity.
  - vm_compute. discriminate.
Defined.

(** X6: a player already at the target does not move, whatever
    [math.hypot] returns there: the divisor falls back to 1 when the
    distance is 0. *)
Theorem X6_move_at_target (hypot : Q -> Q -> Q) (p : Player.t)
    (target : Q * Q) (now : Q) :
  fst target == fst (Player.pos p) -> snd target == snd (Player.pos p) ->
  ~ Py.or_else (hypot (fst target - fst (Player.pos p))
                  (snd target - snd (Player.pos p))) 1 == 0
  /\ fst (Player.pos (Player._move hypot p target now)) == fst (Player.pos p)
  /\ snd (Player.pos (Player._move hypot p target now)) == snd (Player.pos p).
Proof.
  intros Hx Hy. split; [apply move_divisor_nonzero|].
  unfold Player._move. simpl.
  set (m := Py.or_else _ 1).
  assert (Hm : ~ m == 0) by apply move_divisor_nonzero.
  split.
  - rewrite Hx. field. exact Hm.
  - rewrite Hy. field. exact Hm.
Qed.

Lemma X6_move_at_target_witness :
  fst (Player.pos (Player._move (fun _ _ => 0)
                     (Player_new "Sam" "A" MIDFIELDER 5 400 300 AI)
                     (400, 300) 1000)) == 400.
Proof.
  apply (X6_move_at_target (fun _ _ => 0)
           (Player_new "Sam" "A" MIDFIELDER 5 400 300 AI) (400, 300) 1000);
    reflexivity.
Defined.

(** ** Player.update over several frames *)





Section Ticks.

Variable hypot : Q -> Q -> Q.

(** What one [Player.update] leaves alone. *)
Lemma update_frame (p : Player.t) (dt : Q) (ball : Ball.t) (rnd now : Q) :
  let r := Player.update hypot p dt ball rnd now in
  (Player.name (fst r) = Player.name p
   /\ Player.team (fst r) = Player.team p
   /\ Player.ptype (fst r) = Player.ptype p
   /\ Player.ai_lvl (fst r) = Player.ai_lvl p
   /\ Player.control (fst r) = Player.control p
   /\ Player.size (fst r) = Player.size p
   /\ Player.level (fst r) = Player.level p
   /\ Player.exp (fst r) = Player.exp p
   /\ Player.score (fst r) = Player.score p
   /\ Player.max_stamina (fst r) = Player.max_stamina p
   /\ Player.max_flow (fst r) = Player.max_flow p
   /\ Player.stamina (fst r) = Player.stamina p
   /\ Player.awakened_until (fst r) = Player.awakened_until p)
  /\ dom (Player.skill_cd (fst r)) = dom (Player.skill_cd p)
  /\ (Ball.pos (snd r) = Ball.pos ball
      /\ Ball.radius (snd r) = Ball.radius ball
      /\ Ball.friction (snd r) = Ball.friction ball)
  /\ (Player.control p = KEYBOARD ->
      Player.pos (fst r) = Player.pos p /\ snd r = ball).
Proof.
  unfold Player.update. cbv zeta.
  match goal with
  | |- context [if ?c then _ else _] => destruct c eqn:Hc
  end.
  - match goal with
    | |- context [Player._ai hypot ?q dt ball rnd now] =>
        destruct (ai_effects hypot q dt ball rnd now)
          as (_ & Hq & Hb1 & Hb2 & Hb3 & _);
        set (r := Player._ai hypot q dt ball rnd now) in *
    end.
    rewrite Hq. simpl.
    split; [repeat split|]. split; [apply dom_fmap_L|].
    split; [auto|].
    intros Hk. simpl in Hc. rewrite Hk in Hc. discriminate.
  - simpl. split; [repeat split|]. split; [apply dom_fmap_L|].
    split; [auto|]. auto.
Qed.


End Ticks.

(** X7: [Player.update] changes nothing of a player but flow, the
    cooldown values and, for an AI player, the position: identity,
    level, experience, score, maxima, stamina, awakened-until and the
    set of skills with a cooldown entry are as before.  Of the ball it
    changes at most the velocity, and a keyboard-controlled player
    neither moves nor touches the ball. *)
Theorem X7_update_frame (hypot : Q -> Q -> Q) (p : Player.t) (dt : Q)
    (ball : Ball.t) (rnd now : Q) :
  let r := Player.update hypot p dt ball rnd now in
  (Player.name (fst r) = Player.name p
   /\ Player.team (fst r) = Player.team p
   /\ Player.ptype (fst r) = Player.ptype p
   /\ Player.ai_lvl (fst r) = Player.ai_lvl p
   /\ Player.control (fst r) = Player.control p
   /\ Player.size (fst r) = Player.size p
   /\ Player.level (fst r) = Player.level p
   /\ Player.exp (fst r) = Player.exp p
   /\ Player.score (fst r) = Player.score p
   /\ Player.max_stamina (fst r) = Player.max_stamina p
   /\ Player.max_flow (fst r) = Player.max_flow p
   /\ Player.stamina (fst r) = Player.stamina p
   /\ Player.awakened_until (fst r) = Player.awakened_until p)
  /\ dom (Player.skill_cd (fst r)) = dom (Player.skill_cd p)
  /\ (Ball.pos (snd r) = Ball.pos ball
      /\ Ball.radius (snd r) = Ball.radius ball
      /\ Ball.friction (snd r) = Ball.friction ball)
  /\ (Player.control p = KEYBOARD ->
      Player.pos (fst r) = Player.pos p /\ snd r = ball).
Proof. apply update_frame. Qed.

Lemma X7_update_frame_witness :
  Player.update (fun _ _ => 5) player_full_flow (1 # 60)
    (Ball.__init__ 400 300) (1 # 2) 1000
  = (fst (Player.update (fun _ _ => 5) player_full_flow (1 # 60)
            (Ball.__init__ 400 300) (1 # 2) 1000),
     Ball.__init__ 400 300)
  /\ Player.pos (fst (Player.update (fun _ _ => 5) player_full_flow (1 # 60)
                        (Ball.__init__ 400 300) (1 # 2) 1000))
     = (400, 500).
Proof.
  pose proof (X7_update_frame (fun _ _ => 5) player_full_flow (1 # 60)
                (Ball.__init__ 400 300) (1 # 2) 1000) as H.
  cbv zeta in H. destruct H as (_ & _ & _ & H).
  destruct (H eq_refl) as [Hp Hb].
  split; [|exact Hp].
  rewrite <- Hb at 3. apply surjective_pairing.
Defined.



Section Recharge.

Variable hypot : Q -> Q -> Q.

Lemma cooldown_after_use (p : Player.t) (name : string) (now : Q)
    (sk : Skill.t) :
  SkillSystem.skills SkillSystem.__init__ !! name = Some sk ->
  SkillSystem.can_use SkillSystem.__init__ p name = true ->
  Player.skill_cd (fst (SkillSystem.use SkillSystem.__init__ p name now))
    !! name = Some (Skill.cooldown sk).
Proof.
  intros Hsk Hcan.
  destruct (use_accepted _ p name now Hcan) as (sk' & Hsk' & ->).
  rewrite Hsk in Hsk'. injection Hsk' as <-. simpl.
  destruct (SkillSystem.awaken_effect sk); simpl; apply lookup_insert_eq.
Qed.



End Recharge.





(** ** More on the skill system *)

Lemma no_immediate_reuse (p : Player.t) (name : string) (now : Q) :
  SkillSystem.can_use SkillSystem.__init__ p name = true ->
  SkillSystem.can_use SkillSystem.__init__
    (fst (SkillSystem.use SkillSystem.__init__ p name now)) name = false.
Proof.
  intros Hcan.
  destruct (use_accepted _ p name now Hcan) as (sk & Hsk & Huse).
  pose proof (cooldown_after_use p name now sk Hsk Hcan) as Hcd.
  destruct (Qlt_le_dec 0 (Skill.cooldown sk)) as [Hpos | Hzero].
  - exact (can_use_cooling _ _ name _ Hcd Hpos).
  - rewrite Huse. simpl.
    pose proof (init_skills name sk Hsk) as Hfour.
    destruct Hfour as [-> | [-> | [-> | ->]]];
      try (simpl in Hzero; lra).
    unfold SkillSystem.can_use. rewrite Hsk. reflexivity.
Qed.

(** X11: no built-in skill can be used twice in a row.  Right after a
    successful [use], [can_use] refuses the same skill: the three skills
    with a cooldown are cooling, and Awaken, whose cooldown is 0, has
    emptied the flow it needs. *)
Theorem X11_no_immediate_reuse (p : Player.t) (name : string) (now : Q) :
  SkillSystem.can_use SkillSystem.__init__ p name = true ->
  SkillSystem.can_use SkillSystem.__init__
    (fst (SkillSystem.use SkillSystem.__init__ p name now)) name = false
  /\ SkillSystem.use SkillSystem.__init__
       (fst (SkillSystem.use SkillSystem.__init__ p name now)) name now
     = (fst (SkillSystem.use SkillSystem.__init__ p name now), false).
Proof.
  intros Hcan. pose proof (no_immediate_reuse p name now Hcan) as H.
  split; [exact H | apply use_refused, H].
Qed.

Lemma X11_no_immediate_reuse_witness :
  SkillSystem.can_use SkillSystem.__init__
    (fst (SkillSystem.use SkillSystem.__init__ player_full_flow "Awaken"
            1000)) "Awaken" = false.
Proof.
  apply (X11_no_immediate_reuse player_full_flow "Awaken" 1000).
  reflexivity.
Defined.

Lemma use_frame (s : SkillSystem.t) (p : Player.t) (name : string)
    (now : Q) :
  let p' := fst (SkillSystem.use s p name now) in
  (Player.name p' = Player.name p
   /\ Player.team p' = Player.team p
   /\ Player.ptype p' = Player.ptype p
   /\ Player.ai_lvl p' = Player.ai_lvl p
   /\ Player.control p' = Player.control p
   /\ Player.pos p' = Player.pos p
   /\ Player.size p' = Player.size p
   /\ Player.level p' = Player.level p
   /\ Player.exp p' = Player.exp p
   /\ Player.score p' = Player.score p
   /\ Player.max_stamina p' = Player.max_stamina p
   /\ Player.max_flow p' = Player.max_flow p)
  /\ forall other, other <> name ->
       Player.skill_cd p' !! other = Player.skill_cd p !! other.
Proof.
  destruct (SkillSystem.can_use s p name) eqn:Hcan.
  - destruct (use_accepted s p name now Hcan) as (sk & _ & ->).
    destruct (SkillSystem.awaken_effect sk); simpl;
      (split; [repeat split|]); intros other Hne;
      apply lookup_insert_ne; congruence.
  - rewrite (use_refused s p name now Hcan). simpl.
    split; [repeat split | reflexivity].
Qed.


(** X12: [use] with any registry touches only stamina, flow,
    awakened-until and the cooldown entry of the skill named: identity,
    position, level, experience, score and the maxima stay, and so does
    the cooldown entry of every other skill. *)
Theorem X12_use_frame (s : SkillSystem.t) (p : Player.t) (name : string)
    (now : Q) :
  let p' := fst (SkillSystem.use s p name now) in
  (Player.name p' = Player.name p
   /\ Player.team p' = Player.team p
   /\ Player.ptype p' = Player.ptype p
   /\ Player.ai_lvl p' = Player.ai_lvl p
   /\ Player.control p' = Player.control p
   /\ Player.pos p' = Player.pos p
   /\ Player.size p' = Player.size p
   /\ Player.level p' = Player.level p
   /\ Player.exp p' = Player.exp p
   /\ Player.score p' = Player.score p
   /\ Player.max_stamina p' = Player.max_stamina p
   /\ Player.max_flow p' = Player.max_flow p)
  /\ forall other, other <> name ->
       Player.skill_cd p' !! other = Player.skill_cd p !! other.
Proof. apply use_frame. Qed.

Lemma X12_use_frame_witness :
  Player.skill_cd
    (fst (SkillSystem.use SkillSystem.__init__ player_full_flow "Awaken"
            1000)) !! "Power Shot"
  = Player.skill_cd player_full_flow !! "Power Shot".
Proof.
  apply (X12_use_frame SkillSystem.__init__ player_full_flow "Awaken" 1000).
  discriminate.
Defined.

(** X13: [register] files a skill under its name, replacing a skill of
    that name and leaving every other name alone, so [can_use] for the
    other names is unaffected; a name that is not registered is refused
    by [can_use] and [use], with the player unchanged and nothing
    raised. *)
Theorem X13_register_lookup (s : SkillSystem.t) (sk sk0 : Skill.t)
    (p : Player.t) (name : string) (now : Q) :
  SkillSystem.skills (SkillSystem.register s sk) !! Skill.name sk = Some sk
  /\ (Skill.name sk0 = Skill.name sk ->
      SkillSystem.register (SkillSystem.register s sk0) sk
      = SkillSystem.register s sk)
  /\ (name <> Skill.name sk ->
      SkillSystem.skills (SkillSystem.register s sk) !! name
      = SkillSystem.skills s !! name
      /\ SkillSystem.can_use (SkillSystem.register s sk) p name
         = SkillSystem.can_use s p name)
  /\ (SkillSystem.skills s !! name = None ->
      SkillSystem.can_use s p name = false
      /\ SkillSystem.use s p name now = (p, false)).
Proof.
  split; [apply lookup_insert_eq|]. split; [|split].
  - intros Hn. unfold SkillSystem.register. simpl. rewrite Hn.
    f_equal. apply insert_insert_eq.
  - intros Hne.
    assert (Hl : SkillSystem.skills (SkillSystem.register s sk) !! name
                 = SkillSystem.skills s !! name)
      by (apply lookup_insert_ne; congruence).
    split; [exact Hl|]. unfold SkillSystem.can_use. rewrite Hl. reflexivity.
  - intros Hnone.
    assert (Hc : SkillSystem.can_use s p name = false)
      by (unfold SkillSystem.can_use; rewrite Hnone; reflexivity).
    split; [exact Hc | apply use_refused, Hc].
Qed.

Lemma X13_register_lookup_witness :
  let dash := Skill.mk "Dash" STAMINA 0 5 1 ∅ in
  SkillSystem.can_use (SkillSystem.register SkillSystem.__init__ dash)
    player_full_flow "Awaken"
  = SkillSystem.can_use SkillSystem.__init__ player_full_flow "Awaken"
  /\ SkillSystem.use SkillSystem.__init__ player_full_flow "Dash" 1000
     = (player_full_flow, false).
Proof.
  intros dash.
  destruct (X13_register_lookup SkillSystem.__init__ dash dash
              player_full_flow "Awaken" 1000) as (_ & _ & H & _).
  destruct (X13_register_lookup SkillSystem.__init__ dash dash
              player_full_flow "Dash" 1000) as (_ & _ & _ & H').
  split.
  - apply H. discriminate.
  - apply H'. reflexivity.
Defined.

(** ** The menu *)

Lemma py_index_in_range {A : Type} (l : list A) (i : Z) :
  (0 <= i < Z.of_nat (length l))%Z ->
  exists a, py_index l i = Return a /\ l !! Z.to_nat i = Some a.
Proof.
  intros [H0 H1]. unfold py_index.
  destruct (i <? 0)%Z eqn:E1; [apply Z.ltb_lt in E1; lia|].
  rewrite E1. simpl.
  destruct (Z.of_nat (length l) <=? i)%Z eqn:E2;
    [apply Z.leb_le in E2; lia|].
  destruct (l !! Z.to_nat i) as [a|] eqn:E3; [eauto|].
  apply lookup_ge_None in E3. lia.
Qed.

Lemma nav_in_range (m : GUIManager.t) (k : pygame.key) :
  (0 <= GUIManager.sel m < Z.of_nat (length (GUIManager.options m)))%Z ->
  exists m' o,
    GUIManager.nav m k = Return (m', o)
    /\ GUIManager.options m' = GUIManager.options m
    /\ (0 <= GUIManager.sel m' < Z.of_nat (length (GUIManager.options m)))%Z
    /\ GUIManager.options m !! Z.to_nat (GUIManager.sel m') = Some o
    /\ GUIManager.sel m'
       = (if pygame.key_eqb k pygame.K_UP
          then (GUIManager.sel m - 1) mod Z.of_nat (length (GUIManager.options m))
          else if pygame.key_eqb k pygame.K_DOWN
          then (GUIManager.sel m + 1) mod Z.of_nat (length (GUIManager.options m))
          else GUIManager.sel m)%Z.
Proof.
  intros Hsel. unfold GUIManager.nav.
  set (n := Z.of_nat (length (GUIManager.options m))) in *.
  assert (Hn : (n =? 0)%Z = false) by (apply Z.eqb_neq; lia).
  unfold py_mod. rewrite Hn.
  destruct k; simpl;
    match goal with
    | |- context [py_index _ ?i] =>
        destruct (py_index_in_range (GUIManager.options m) i)
          as (o & -> & Ho);
        [try (apply Z.mod_pos_bound; lia); fold n; lia|]
    end; simpl; do 2 eexists; (split; [reflexivity|]); simpl;
    (split; [reflexivity|]);
    (split; [try (apply Z.mod_pos_bound; lia); lia|]);
    (split; [exact Ho | reflexivity]).
Qed.

(** X14: with at least one option and the selection within the options,
    [nav] never raises: it returns the option now selected, keeps the
    options, and the selection stays within them, one up (modulo the
    number of options) for the up key, one down for the down key,
    unchanged for any other key. *)
Theorem X14_nav_selects_within_options (m : GUIManager.t) (k : pygame.key) :
  (0 <= GUIManager.sel m < Z.of_nat (length (GUIManager.options m)))%Z ->
  exists m' o,
    GUIManager.nav m k = Return (m', o)
    /\ GUIManager.options m' = GUIManager.options m
    /\ (0 <= GUIManager.sel m' < Z.of_nat (length (GUIManager.options m)))%Z
    /\ GUIManager.options m !! Z.to_nat (GUIManager.sel m') = Some o
    /\ GUIManager.sel m'
       = (if pygame.key_eqb k pygame.K_UP
          then (GUIManager.sel m - 1) mod Z.of_nat (length (GUIManager.options m))
          else if pygame.key_eqb k pygame.K_DOWN
          then (GUIManager.sel m + 1) mod Z.of_nat (length (GUIManager.options m))
          else GUIManager.sel m)%Z.
Proof. apply nav_in_range. Qed.

Lemma X14_nav_selects_within_options_witness :
  exists m' o,
    GUIManager.nav GUIManager.__init__ pygame.K_UP = Return (m', o)
    /\ GUIManager.options m' = ["Start"; "Quit"].
Proof.
  destruct (X14_nav_selects_within_options GUIManager.__init__ pygame.K_UP)
    as (m' & o & H1 & H2 & _).
  - simpl. lia.
  - exists m', o. split; [exact H1 | exact H2].
Defined.

(** X15: up and down undo each other.  With the selection within the
    options, [nav] with the up key followed by [nav] with the down key
    leaves the menu as it was and returns the option first selected;
    likewise down followed by up. *)
Theorem X15_nav_up_down_round_trip (m : GUIManager.t) :
  (0 <= GUIManager.sel m < Z.of_nat (length (GUIManager.options m)))%Z ->
  (exists m1 o1 o2,
     GUIManager.nav m pygame.K_UP = Return (m1, o1)
     /\ GUIManager.nav m1 pygame.K_DOWN = Return (m, o2)
     /\ GUIManager.options m !! Z.to_nat (GUIManager.sel m) = Some o2)
  /\ (exists m1 o1 o2,
        GUIManager.nav m pygame.K_DOWN = Return (m1, o1)
        /\ GUIManager.nav m1 pygame.K_UP = Return (m, o2)
        /\ GUIManager.options m !! Z.to_nat (GUIManager.sel m) = Some o2).
Proof.
  intros Hsel.
  set (n := Z.of_nat (length (GUIManager.options m))) in *.
  assert (Hback : forall k1 k2 d,
    (if pygame.key_eqb k1 pygame.K_UP then true
     else pygame.key_eqb k1 pygame.K_DOWN) = true ->
    (forall s, (if pygame.key_eqb k1 pygame.K_UP
                then (s - 1) mod n
                else if pygame.key_eqb k1 pygame.K_DOWN
                then (s + 1) mod n else s) = (s + d) mod n)%Z ->
    (forall s, (if pygame.key_eqb k2 pygame.K_UP
                then (s - 1) mod n
                else if pygame.key_eqb k2 pygame.K_DOWN
                then (s + 1) mod n else s) = (s - d) mod n)%Z ->
    exists m1 o1 o2,
      GUIManager.nav m k1 = Return (m1, o1)
      /\ GUIManager.nav m1 k2 = Return (m, o2)
      /\ GUIManager.options m !! Z.to_nat (GUIManager.sel m) = Some o2).
  { intros k1 k2 d _ H1 H2.
    destruct (nav_in_range m k1 Hsel) as (m1 & o1 & Hn1 & Ho1 & Hr1 & _ & Hs1).
    fold n in Hr1, Hs1. rewrite H1 in Hs1.
    assert (Hsel1 : (0 <= GUIManager.sel m1
                     < Z.of_nat (length (GUIManager.options m1)))%Z)
      by (rewrite Ho1; exact Hr1).
    destruct (nav_in_range m1 k2 Hsel1)
      as (m2 & o2 & Hn2 & Ho2 & _ & Hl2 & Hs2).
    rewrite Ho1 in Ho2, Hl2, Hs2. fold n in Hs2. rewrite H2, Hs1 in Hs2.
    rewrite Zminus_mod_idemp_l in Hs2.
    replace (GUIManager.sel m + d - d)%Z with (GUIManager.sel m) in Hs2
      by lia.
    rewrite Z.mod_small in Hs2 by lia.
    assert (Hm : m2 = m) by (destruct m, m2; simpl in *; congruence).
    subst m2. exists m1, o1, o2. auto. }
  split.
  - apply (Hback pygame.K_UP pygame.K_DOWN (-1)%Z); [reflexivity| |];
      intros s; simpl; f_equal; lia.
  - apply (Hback pygame.K_DOWN pygame.K_UP 1%Z); [reflexivity| |];
      intros s; simpl; f_equal; lia.
Qed.

Lemma X15_nav_up_down_round_trip_witness :
  exists m1 o1 o2,
    GUIManager.nav GUIManager.__init__ pygame.K_UP = Return (m1, o1)
    /\ GUIManager.nav m1 pygame.K_DOWN = Return (GUIManager.__init__, o2).
Proof.
  destruct (X15_nav_up_down_round_trip GUIManager.__init__)
    as [(m1 & o1 & o2 & H1 & H2 & _) _].
  - simpl. lia.
  - exists m1, o1, o2. split; [exact H1 | exact H2].
Defined.

Lemma py_index_nil {A : Type} (i : Z) :
  py_index (@nil A) i = Raised Exc.IndexError.
Proof.
  unfold py_index. simpl.
  match goal with |- (if ?c then _ else _) = _ => destruct c end;
    reflexivity.
Qed.

(** X16: a menu without options cannot be navigated: the up and down
    keys raise [ZeroDivisionError] from the modulo, any other key raises
    [IndexError] from the lookup, whatever the selection. *)
Theorem X16_nav_without_options (m : GUIManager.t) (k : pygame.key) :
  GUIManager.options m = [] ->
  GUIManager.nav m k
  = Raised (if pygame.key_eqb k pygame.K_UP || pygame.key_eqb k pygame.K_DOWN
            then Exc.ZeroDivisionError else Exc.IndexError).
Proof.
  intros He. unfold GUIManager.nav. rewrite He.
  destruct k; simpl; try reflexivity; rewrite py_index_nil; reflexivity.
Qed.

Lemma X16_nav_without_options_witness :
  GUIManager.nav (GUIManager.mk [] 0) pygame.K_DOWN
  = Raised Exc.ZeroDivisionError
  /\ GUIManager.nav (GUIManager.mk [] 0) pygame.K_g = Raised Exc.IndexError.
Proof.
  split.
  - apply (X16_nav_without_options (GUIManager.mk [] 0) pygame.K_DOWN).
    reflexivity.
  - apply (X16_nav_without_options (GUIManager.mk [] 0) pygame.K_g).
    reflexivity.
Defined.

(** ** The roster *)

Lemma Player_new_init (name team : string) (ptype : PlayerType)
    (ai_lvl x y : Q) (control : ControlType) :
  Player.__init__ name team ptype ai_lvl [x; y] control
  = Ok (Player_new name team ptype ai_lvl x y control).
Proof. reflexivity. Qed.

Lemma Player_new_ok (name team : string) (ptype : PlayerType)
    (ai_lvl x y : Q) (control : ControlType) :
  resources_ok (Player_new name team ptype ai_lvl x y control).
Proof.
  unfold resources_ok. simpl.
  split; [split; lra|]. split; [split; vm_compute; congruence|].
  apply map_Forall_empty.
Qed.

Lemma create_all_returns (rand : nat -> CharacterFactory.draw) :
  CharacterFactory.create_all rand
  = Return
      (map (fun it : nat * CharacterFactory.template * PlayerType =>
              let '(i, t, pt) := it in
              Player_new (CharacterFactory.t_name t)
                (if CharacterFactory.choice (rand i) then "A" else "B") pt
                (inject_Z (CharacterFactory.t_ai t))
                (inject_Z (CharacterFactory.randx (rand i)))
                (inject_Z (CharacterFactory.randy (rand i))) AI)
         [(0%nat, CharacterFactory.mk_template "Alex" "striker" 6, STRIKER);
          (1%nat, CharacterFactory.mk_template "Sam" "midfielder" 5,
           MIDFIELDER);
          (2%nat, CharacterFactory.mk_template "Lee" "defender" 7, DEFENDER);
          (3%nat, CharacterFactory.mk_template "Jin" "goalkeeper" 4,
           GOALKEEPER)]).
Proof. reflexivity. Qed.

Lemma start_game_spec (g : GameEngine.t) (rand : nat -> CharacterFactory.draw)
    (now : Q) :
  exists ais g',
    CharacterFactory.create_all rand = Return ais
    /\ Engine._start_game g rand now = Return g'
    /\ GameEngine.players g'
       = (ais ++ [Player_new "You" "B" STRIKER 1 400 500 KEYBOARD])%list
    /\ length ais = 4%nat
    /\ Forall (fun p => is_human p = false
                        /\ (Player.team p = "A" \/ Player.team p = "B")) ais
    /\ Forall resources_ok (GameEngine.players g')
    /\ GameEngine.teams g' = <["A" := 0%Z]> (<["B" := 0%Z]> ∅)
    /\ GameEngine.start g' = now
    /\ GameEngine.state g' = GameEngine.state g
    /\ GameEngine.skill_sys g' = GameEngine.skill_sys g
    /\ GameEngine.ball g' = GameEngine.ball g
    /\ GameEngine.goal_time g' = GameEngine.goal_time g.
Proof.
  unfold Engine._start_game. rewrite create_all_returns. simpl.
  do 2 eexists. split; [reflexivity|]. split; [reflexivity|]. simpl.
  split; [reflexivity|]. split; [reflexivity|].
  split.
  - repeat (constructor;
            [split; [reflexivity|];
             match goal with
             | |- context [CharacterFactory.choice ?d] =>
                 destruct (CharacterFactory.choice d); auto
             end|]).
    constructor.
  - split; [|repeat split].
    repeat (constructor; [apply Player_new_ok|]). constructor.
Qed.

(** X17: [_start_game] never raises and builds a roster of five: the
    four players of [create_all], all AI-controlled and each on team A
    or B, followed by the one keyboard-controlled player, on team B.
    Every player starts within the resource invariant, the score is
    reset to 0 : 0 and the start time is the clock reading; the state,
    the ball and the goal time are left as they were. *)
Theorem X17_start_game_roster (g : GameEngine.t)
    (rand : nat -> CharacterFactory.draw) (now : Q) :
  exists ais g',
    CharacterFactory.create_all rand = Return ais
    /\ Engine._start_game g rand now = Return g'
    /\ GameEngine.players g'
       = (ais ++ [Player_new "You" "B" STRIKER 1 400 500 KEYBOARD])%list
    /\ length ais = 4%nat
    /\ Forall (fun p => is_human p = false
                        /\ (Player.team p = "A" \/ Player.team p = "B")) ais
    /\ Forall resources_ok (GameEngine.players g')
    /\ GameEngine.teams g' = <["A" := 0%Z]> (<["B" := 0%Z]> ∅)
    /\ GameEngine.start g' = now
    /\ GameEngine.state g' = GameEngine.state g
    /\ GameEngine.skill_sys g' = GameEngine.skill_sys g
    /\ GameEngine.ball g' = GameEngine.ball g
    /\ GameEngine.goal_time g' = GameEngine.goal_time g.
Proof. apply start_game_spec. Qed.

(** ** Input handling *)


Lemma on_human_none (f : Player.t -> Player.t) (ps : list Player.t) :
  Forall (fun p => is_human p = false) ps -> Engine.on_human f ps = ps.
Proof.
  induction 1 as [|p ps Hp Hps IH]; simpl; [reflexivity|].
  unfold is_human in Hp. rewrite Hp, IH. reflexivity.
Qed.

Lemma on_human_first (f : Player.t -> Player.t)
    (before after : list Player.t) (hp : Player.t) :
  Forall (fun p => is_human p = false) before -> is_human hp = true ->
  Engine.on_human f (before ++ hp :: after)%list
  = (before ++ f hp :: after)%list.
Proof.
  intros Hb Hh. induction Hb as [|p ps Hp Hps IH]; simpl.
  - unfold is_human in Hh. rewrite Hh. reflexivity.
  - unfold is_human in Hp. rewrite Hp, IH. reflexivity.
Qed.


Lemma move_human_box (pressed : pygame.key -> bool) (hp : Player.t) :
  (0 <= Player.size hp <= SCREEN_H)%Z ->
  let half := inject_Z (Player.size hp) / 2 in
  let hp' := Engine.move_human pressed hp in
  hp' = Player.set_pos hp (Player.pos hp')
  /\ half <= fst (Player.pos hp') <= inject_Z SCREEN_W - half
  /\ half <= snd (Player.pos hp') <= inject_Z SCREEN_H - half.
Proof.
  intros [Hs0 Hs1] half hp'. subst hp'. unfold Engine.move_human.
  fold half. simpl.
  assert (H0 : 0 <= half <= 300).
  { subst half. rewrite Zle_Qle in Hs0, Hs1.
    change (inject_Z 0) with 0 in Hs0.
    change (inject_Z SCREEN_H) with 600 in Hs1.
    split.
    - apply Qle_shift_div_l; lra.
    - apply Qle_shift_div_r; lra. }
  change (inject_Z SCREEN_W) with 800. change (inject_Z SCREEN_H) with 600.
  split; [reflexivity|].
  split; split; try apply Py_max_lb_l;
    apply Py_max_ub; try apply Py_min_ub_l; lra.
Qed.




Lemma handle_skill_key_returns (g : GameEngine.t) (k : pygame.key) (now : Q) :
  pygame.key_eqb k pygame.K_g || pygame.key_eqb k pygame.K_1
  || pygame.key_eqb k pygame.K_2 = true ->
  exists name,
    Engine._handle_skill_key g k now
    = Return (Engine.set_players g
                (Engine.on_human
                   (fun hp => fst (SkillSystem.use (GameEngine.skill_sys g) hp
                                     name now))
                   (GameEngine.players g))).
Proof. destruct k; simpl; try discriminate; intros _; eexists; reflexivity. Qed.

Ltac same_match_tac :=
  unfold same_match; simpl; repeat (split; [reflexivity|]); reflexivity.



Lemma set_pos_ok (p : Player.t) (xy : Q * Q) :
  resources_ok p -> resources_ok (Player.set_pos p xy).
Proof. intros H. exact H. Qed.



Section Frames.

Variable hypot : Q -> Q -> Q.



End Frames.

(** ** The loops *)

Lemma pause_loop_spec (es : list pygame.event) (g : GameEngine.t) :
  Engine._pause_loop g es
  = if existsb is_escape es then Engine.set_state g PLAYING else g.
Proof.
  unfold Engine._pause_loop. revert g.
  induction es as [|e es IH]; intros g; simpl; [reflexivity|].
  rewrite IH. destruct e as [|k|]; simpl; try reflexivity.
  destruct (pygame.key_eqb k pygame.K_ESCAPE); simpl; [|reflexivity].
  destruct (existsb is_escape es); reflexivity.
Qed.




Section Run.

Variable hypot : Q -> Q -> Q.



End Run.




Lemma set_players_same (g : GameEngine.t) :
  Engine.set_players g (GameEngine.players g) = g.
Proof. destruct g; reflexivity. Qed.

(** X19: [_handle_movement] moves the first keyboard-controlled player
    only, changes nothing of that player but the position, and leaves
    the position within the screen less half the player's size on every
    side, wherever the player was and whichever keys are held, for a
    size between 0 and the screen height. *)
Theorem X19_human_stays_on_screen (g : GameEngine.t)
    (pressed : pygame.key -> bool) (before after : list Player.t)
    (hp : Player.t) :
  GameEngine.players g = (before ++ hp :: after)%list ->
  Forall (fun p => is_human p = false) before -> is_human hp = true ->
  (0 <= Player.size hp <= SCREEN_H)%Z ->
  let half := inject_Z (Player.size hp) / 2 in
  exists hp',
    GameEngine.players (Engine._handle_movement g pressed)
    = (before ++ hp' :: after)%list
    /\ hp' = Player.set_pos hp (Player.pos hp')
    /\ half <= fst (Player.pos hp') <= inject_Z SCREEN_W - half
    /\ half <= snd (Player.pos hp') <= inject_Z SCREEN_H - half.
Proof.
  intros Hps Hb Hh Hsz half.
  exists (Engine.move_human pressed hp). split.
  - unfold Engine._handle_movement. simpl. rewrite Hps.
    apply on_human_first; assumption.
  - apply move_human_box, Hsz.
Qed.

Lemma X19_human_stays_on_screen_witness :
  let you := Player_new "You" "B" STRIKER 1 790 500 KEYBOARD in
  let lee := Player_new "Lee" "A" DEFENDER 7 100 100 AI in
  let g := Engine.set_players (Engine.core Engine.__init__) [lee; you] in
  exists hp',
    GameEngine.players
      (Engine._handle_movement g
         (fun k => pygame.key_eqb k pygame.K_d)) = [lee; hp']
    /\ fst (Player.pos hp') <= inject_Z SCREEN_W - inject_Z 24 / 2.
Proof.
  intros you lee g.
  destruct (X19_human_stays_on_screen g
              (fun k => pygame.key_eqb k pygame.K_d) [lee] [] you)
    as (hp' & H1 & _ & [_ H2] & _).
  - reflexivity.
  - repeat constructor.
  - reflexivity.
  - simpl. unfold SCREEN_H. lia.
  - exists hp'. split; [exact H1 | exact H2].
Defined.

(** X20: without a keyboard-controlled player, input handling does
    nothing and raises nothing: [_handle_movement] leaves the engine as
    it is and [_handle_skill_key] returns it unchanged for each of the
    three bound keys.  For any other key [_handle_skill_key] raises
    [KeyError]. *)
Theorem X20_input_without_human (g : GameEngine.t)
    (pressed : pygame.key -> bool) (k : pygame.key) (now : Q) :
  Forall (fun p => is_human p = false) (GameEngine.players g) ->
  Engine._handle_movement g pressed = g
  /\ Engine._handle_skill_key g k now
     = if pygame.key_eqb k pygame.K_g || pygame.key_eqb k pygame.K_1
          || pygame.key_eqb k pygame.K_2
       then Return g else Raised Exc.KeyError.
Proof.
  intros Hnone. split.
  - unfold Engine._handle_movement. rewrite on_human_none by exact Hnone.
    apply set_players_same.
  - destruct (pygame.key_eqb k pygame.K_g || pygame.key_eqb k pygame.K_1
              || pygame.key_eqb k pygame.K_2) eqn:Hk.
    + destruct (handle_skill_key_returns g k now Hk) as (name & ->).
      rewrite on_human_none by exact Hnone. rewrite set_players_same.
      reflexivity.
    + destruct k; simpl in Hk; try discriminate; reflexivity.
Qed.

Lemma X20_input_without_human_witness :
  let lee := Player_new "Lee" "A" DEFENDER 7 100 100 AI in
  let g := Engine.set_players (Engine.core Engine.__init__) [lee] in
  Engine._handle_movement g (fun _ => true) = g
  /\ Engine._handle_skill_key g pygame.K_g 1000 = Return g.
Proof.
  intros lee g.
  apply (X20_input_without_human g (fun _ => true) pygame.K_g 1000).
  repeat constructor.
Defined.

(** X21: nothing advances while paused.  In the paused state one
    iteration of [run] never raises and changes at most the state, to
    playing when the frame holds an escape key press; the ball, the
    players, the score, the times and the menu stay, and a quit event is
    ignored. *)
Theorem X21_pause_freezes (hypot : Q -> Q -> Q) (s : Engine.t)
    (f : Engine.frame) :
  GameEngine.state (Engine.core s) = PAUSED ->
  exists s',
    Engine.run_step hypot s f = Return s'
    /\ Engine.menu s' = Engine.menu s
    /\ same_match (Engine.core s) (Engine.core s')
    /\ GameEngine.players (Engine.core s') = GameEngine.players (Engine.core s)
    /\ GameEngine.state (Engine.core s')
       = if existsb is_escape (Engine.events f) then PLAYING else PAUSED.
Proof.
  intros Hst. unfold Engine.run_step. rewrite Hst, pause_loop_spec.
  eexists. split; [reflexivity|]. simpl.
  destruct (existsb is_escape (Engine.events f)); simpl;
    (split; [reflexivity|]); (split; [same_match_tac|]);
    (split; [reflexivity|]); auto.
Qed.

Lemma X21_pause_freezes_witness :
  let s := {| Engine.core := Engine.set_state engine_after_goal PAUSED;
              Engine.menu := GUIManager.__init__ |} in
  exists s',
    Engine.run_step (fun _ _ => 5) s (with_events quiet_frame [pygame.QUIT])
    = Return s'
    /\ GameEngine.state (Engine.core s') = PAUSED.
Proof.
  intros s.
  destruct (X21_pause_freezes (fun _ _ => 5) s
              (with_events quiet_frame [pygame.QUIT]) eq_refl)
    as (s' & H1 & _ & _ & _ & H2).
  exists s'. split; [exact H1 | exact H2].
Defined.

(** X22: in the menu a key press decides at once.  With the two options
    of the constructor, [_menu_loop] on a single key-down event never
    leaves the engine in the menu: an arrow key flips the selection, any
    other key keeps it, and then the game starts, with its roster of
    five and the clock reading as start time, if the selection is on
    the first option, and is over if it is on the second.  From the
    initial selection an arrow key therefore ends the game and any other
    key starts it. *)
Theorem X22_menu_key_decides (s : Engine.t) (f : Engine.frame)
    (k : pygame.key) :
  GUIManager.options (Engine.menu s) = ["Start"; "Quit"] ->
  (0 <= GUIManager.sel (Engine.menu s) < 2)%Z ->
  Engine.events f = [pygame.KEYDOWN k] ->
  exists s',
    Engine._menu_loop s f = Return s'
    /\ GUIManager.sel (Engine.menu s')
       = (if pygame.key_eqb k pygame.K_UP || pygame.key_eqb k pygame.K_DOWN
          then 1 - GUIManager.sel (Engine.menu s)
          else GUIManager.sel (Engine.menu s))%Z
    /\ GameEngine.state (Engine.core s')
       = (if (GUIManager.sel (Engine.menu s') =? 0)%Z
          then PLAYING else GAME_OVER)
    /\ (GameEngine.state (Engine.core s') = PLAYING ->
        length (GameEngine.players (Engine.core s')) = 5%nat
        /\ GameEngine.start (Engine.core s') = Engine.now f).
Proof.
  destruct s as [g [opts sel]]. simpl. intros -> Hsel Hev.
  unfold Engine._menu_loop. rewrite Hev.
  assert (Hcase : sel = 0%Z \/ sel = 1%Z) by lia.
  destruct Hcase as [-> | ->]; destruct k;
    (eexists; split; [reflexivity|]); simpl;
    (split; [reflexivity|]); (split; [reflexivity|]);
    intros H; try discriminate H; split; reflexivity.
Qed.

Lemma X22_menu_key_decides_witness :
  (exists s',
     Engine._menu_loop Engine.__init__
       (with_events quiet_frame [pygame.KEYDOWN pygame.K_DOWN]) = Return s'
     /\ GameEngine.state (Engine.core s') = GAME_OVER)
  /\ (exists s',
        Engine._menu_loop Engine.__init__
          (with_events quiet_frame [pygame.KEYDOWN pygame.K_a]) = Return s'
        /\ GameEngine.state (Engine.core s') = PLAYING
        /\ length (GameEngine.players (Engine.core s')) = 5%nat).
Proof.
  split.
  - destruct (X22_menu_key_decides Engine.__init__
                (with_events quiet_frame [pygame.KEYDOWN pygame.K_DOWN])
                pygame.K_DOWN) as (s' & H1 & H2 & H3 & _);
      [reflexivity | simpl; lia | reflexivity |].
    exists s'. split; [exact H1|]. rewrite H3, H2. reflexivity.
  - destruct (X22_menu_key_decides Engine.__init__
                (with_events quiet_frame [pygame.KEYDOWN pygame.K_a])
                pygame.K_a) as (s' & H1 & H2 & H3 & H4);
      [reflexivity | simpl; lia | reflexivity |].
    assert (Hp : GameEngine.state (Engine.core s') = PLAYING)
      by (rewrite H3, H2; reflexivity).
    exists s'. split; [exact H1|]. split; [exact Hp|]. apply H4, Hp.
Defined.





Section Roster.

Variable hypot : Q -> Q -> Q.



End Roster.



(** ** Status bars *)

(** X26: the status bars fit their backgrounds.  For a player within the
    resource invariant, with positive maxima and a non-negative size,
    [_draw_bars] draws four rectangles, and the stamina bar and the flow
    bar start where their grey backgrounds start and are between 0 and
    the background's width wide.  With a maximum of 0 the division
    raises [ZeroDivisionError]. *)
Theorem X26_bars_fit (p : Player.t) :
  (resources_ok p -> 0 < Player.max_stamina p -> 0 < Player.max_flow p ->
   (0 <= Player.size p)%Z ->
   exists back1 bar1 back2 bar2,
     _draw_bars p = Return [back1; bar1; back2; bar2]
     /\ rect_left bar1 = rect_left back1 /\ rect_top bar1 = rect_top back1
     /\ rect_left bar2 = rect_left back2 /\ rect_top bar2 = rect_top back2
     /\ 0 <= rect_width bar1 <= rect_width back1
     /\ 0 <= rect_width bar2 <= rect_width back2)
  /\ (Player.max_stamina p == 0 ->
      _draw_bars p = Raised Exc.ZeroDivisionError)
  /\ (Player.max_flow p == 0 ->
      _draw_bars p = Raised Exc.ZeroDivisionError).
Proof.
  assert (Hdiv : forall a b, 0 < b -> py_truediv a b = Return (a / b)).
  { intros a b Hb. unfold py_truediv.
    destruct (Qeq_bool b 0) eqn:E; [|reflexivity].
    apply Qeq_bool_iff in E. lra. }
  assert (Hzero : forall a b, b == 0 ->
                  py_truediv a b = Raised Exc.ZeroDivisionError).
  { intros a b Hb. unfold py_truediv.
    apply Qeq_bool_iff in Hb. rewrite Hb. reflexivity. }
  assert (Hfrac : forall sz a b, 0 <= sz -> 0 <= a -> a <= b -> 0 < b ->
                  0 <= sz * (a / b) <= sz).
  { intros sz a b Hsz Ha Hab Hb.
    assert (H0 : 0 <= a / b) by (apply Qle_shift_div_l; lra).
    assert (H1 : a / b <= 1) by (apply Qle_shift_div_r; lra).
    split; nra. }
  split; [|split].
  - intros ((Hs0 & Hs1) & (Hf0 & Hf1) & _) Hms Hmf Hsz.
    unfold _draw_bars. rewrite (Hdiv _ _ Hms), (Hdiv _ _ Hmf).
    cbn [mbind result_bind].
    do 4 eexists. split; [reflexivity|]. simpl.
    rewrite Zle_Qle in Hsz. change (inject_Z 0) with 0 in Hsz.
    repeat (split; [reflexivity|]).
    split; apply Hfrac; assumption.
  - intros Hz. unfold _draw_bars. rewrite (Hzero _ _ Hz). reflexivity.
  - intros Hz. unfold _draw_bars. rewrite (Hzero _ _ Hz).
    unfold py_truediv.
    destruct (Qeq_bool (Player.max_stamina p) 0); reflexivity.
Qed.

Lemma X26_bars_fit_witness :
  (exists back1 bar1 back2 bar2,
     _draw_bars player_full_flow = Return [back1; bar1; back2; bar2]
     /\ 0 <= rect_width bar1 <= rect_width back1)
  /\ _draw_bars (loaded (<["max_flow" := VNum 0]> snapshot_identity_only)
                   "Alex" "A")
     = Raised Exc.ZeroDivisionError.
Proof.
  split.
  - destruct (X26_bars_fit player_full_flow) as (H & _).
    destruct H as (b1 & r1 & b2 & r2 & H1 & _ & _ & _ & _ & H2 & _).
    + unfold resources_ok, player_full_flow. simpl.
      split; [split; lra|]. split; [split; lra|].
      apply map_Forall_singleton. lra.
    + reflexivity.
    + reflexivity.
    + simpl. lia.
    + exists b1, r1, b2, r2. split; [exact H1 | exact H2].
  - apply (X26_bars_fit
             (loaded (<["max_flow" := VNum 0]> snapshot_identity_only)
                "Alex" "A")).
    reflexivity.
Defined.

(** ** The save file *)

(** X27: [load] of a missing file returns [None] and raises nothing;
    [save] followed by [load] of the same file returns the saved value
    whenever [json.load] reads back what [json.dump] wrote, replacing
    whatever the file held; saving leaves every other file as it was;
    and a file whose text [json.load] rejects makes [load] raise. *)
Theorem X27_save_then_load (J : Type) (dumps : J -> string)
    (loads : string -> option J) (fs : gmap string string)
    (file other : string) (v : J) (text : string) :
  (fs !! file = None -> SaveSystem.load J loads fs file = Return None)
  /\ (loads (dumps v) = Some v ->
      SaveSystem.load J loads (SaveSystem.save J dumps fs file v) file
      = Return (Some v))
  /\ (other <> file ->
      SaveSystem.load J loads (SaveSystem.save J dumps fs file v) other
      = SaveSystem.load J loads fs other)
  /\ (fs !! file = Some text -> loads text = None ->
      SaveSystem.load J loads fs file = Raised Exc.ValueError).
Proof.
  unfold SaveSystem.load, SaveSystem.save.
  split; [intros ->; reflexivity|].
  split; [intros Hrt; rewrite lookup_insert_eq, Hrt; reflexivity|].
  split; [intros Hne; rewrite lookup_insert_ne by congruence; reflexivity|].
  intros -> ->. reflexivity.
Qed.

Lemma X27_save_then_load_witness :
  let loads := fun t : string =>
                 if String.eqb t "7" then Some 7%Z else None in
  SaveSystem.load Z loads ∅ "game_save.json" = Return None
  /\ SaveSystem.load Z loads
       (SaveSystem.save Z (fun _ => "7") {["game_save.json" := "{"]}
          "game_save.json" 7%Z) "game_save.json" = Return (Some 7%Z)
  /\ SaveSystem.load Z loads {["game_save.json" := "{"]} "game_save.json"
     = Raised Exc.ValueError.
Proof.
  intros loads.
  destruct (X27_save_then_load Z (fun _ => "7") loads ∅ "game_save.json"
              "other" 7%Z "") as (H1 & _).
  destruct (X27_save_then_load Z (fun _ => "7") loads
              {["game_save.json" := "{"]} "game_save.json" "other" 7%Z "{")
    as (_ & H2 & _ & H4).
  split; [apply H1; reflexivity|].
  split; [apply H2; reflexivity | apply H4; reflexivity].
Defined.

(** X28: a player survives the save file.  Saving the snapshot of a
    player and loading the file back gives a dictionary from which
    [from_dict] rebuilds the player, field for field, with the
    constructor's size, provided [json.load] reads back what
    [json.dump] wrote for that snapshot. *)
Theorem X28_player_survives_save (dumps : gmap string pyval -> string)
    (loads : string -> option (gmap string pyval))
    (fs : gmap string string) (file : string) (p : Player.t) :
  loads (dumps (Player.to_dict p)) = Some (Player.to_dict p) ->
  exists d,
    SaveSystem.load _ loads (SaveSystem.save _ dumps fs file (Player.to_dict p))
      file = Return (Some d)
    /\ Player.from_dict d
       = Ok {| Player.name := Player.name p;
               Player.team := Player.team p;
               Player.ptype := Player.ptype p;
               Player.ai_lvl := Player.ai_lvl p;
               Player.control := Player.control p;
               Player.pos := Player.pos p;
               Player.size := 24;
               Player.level := Player.level p;
               Player.exp := Player.exp p;
               Player.score := Player.score p;
               Player.max_stamina := Player.max_stamina p;
               Player.max_flow := Player.max_flow p;
               Player.stamina := Player.stamina p;
               Player.flow := Player.flow p;
               Player.skill_cd := Player.skill_cd p;
               Player.awakened_until := Player.awakened_until p |}.
Proof.
  intros Hrt. exists (Player.to_dict p). split.
  - unfold SaveSystem.load, SaveSystem.save.
    rewrite lookup_insert_eq, Hrt. reflexivity.
  - destruct p as [nm tm pt lvl ct [x y] sz lv ex sc ms mf st fl cd au].
    destruct pt, ct; vm_compute; reflexivity.
Qed.

Lemma X28_player_survives_save_witness :
  exists d,
    SaveSystem.load _ (fun _ => Some (Player.to_dict player_full_flow))
      (SaveSystem.save _ (fun _ => "{}") ∅ "game_save.json"
         (Player.to_dict player_full_flow)) "game_save.json"
    = Return (Some d)
    /\ Player.name <$> (match Player.from_dict d with
                        | Ok q => Some q
                        | _ => None
                        end) = Some "You".
Proof.
  destruct (X28_player_survives_save (fun _ => "{}")
              (fun _ => Some (Player.to_dict player_full_flow)) ∅
              "game_save.json" player_full_flow eq_refl) as (d & H1 & H2).
  exists d. split; [exact H1|]. rewrite H2. reflexivity.
Defined.

(** ** More on snapshots *)

(** X29: [to_dict] writes exactly the fifteen snapshot keys, and
    [from_dict] reads no other: an entry under any other key changes
    neither the player loaded nor the exception raised. *)
Theorem X29_snapshot_keys (p : Player.t) (d : gmap string pyval)
    (k : string) (v : pyval) :
  (is_Some (Player.to_dict p !! k) <-> k ∈ snapshot_keys)
  /\ (k ∉ snapshot_keys ->
      Player.from_dict (<[k := v]> d) = Player.from_dict d).
Proof.
  split.
  - unfold Player.to_dict, snapshot_keys.
    rewrite !lookup_insert_is_Some, lookup_empty, is_Some_alt.
    rewrite !elem_of_cons, elem_of_nil. intuition congruence.
  - unfold snapshot_keys. rewrite !not_elem_of_cons. intros Hk.
    destruct_and!.
    unfold Player.from_dict, getitem, get.
    rewrite !lookup_insert_ne by congruence. reflexivity.
Qed.

Lemma X29_snapshot_keys_witness :
  Player.from_dict (<["hp" := VNum 3]> (Player.to_dict player_full_flow))
  = Player.from_dict (Player.to_dict player_full_flow).
Proof.
  apply (X29_snapshot_keys player_full_flow
           (Player.to_dict player_full_flow) "hp" (VNum 3)).
  unfold snapshot_keys. rewrite !not_elem_of_cons.
  repeat (split; [discriminate|]). apply not_elem_of_nil.
Defined.

(** X30: what [from_dict] rejects in a snapshot that has a name and a
    team.  A role entry that is not the value of a role raises
    [ValueError]; so does such a control entry once the role, the AI
    level and the position are in order; and a position of fewer than
    two numbers raises [IndexError] from the constructor, after the
    control entry has been accepted. *)
Theorem X30_from_dict_rejects (d : gmap string pyval) (nm tm : string) :
  d !! "name" = Some (VStr nm) -> d !! "team" = Some (VStr tm) ->
  (forall v, d !! "ptype" = Some v -> is_ptype v = false ->
             Player.from_dict d = Raise ValueError)
  /\ (forall v xs,
        optional d "ptype" is_ptype = true ->
        optional d "ai_lvl" is_num = true ->
        d !! "pos" = Some (VList xs) ->
        d !! "control" = Some v -> is_control v = false ->
        Player.from_dict d = Raise ValueError)
  /\ (forall xs,
        optional d "ptype" is_ptype = true ->
        optional d "ai_lvl" is_num = true ->
        optional d "control" is_control = true ->
        d !! "pos" = Some (VList xs) -> (length xs < 2)%nat ->
        Player.from_dict d = Raise IndexError).
Proof.
  intros Hn Ht.
  assert (Hget : forall key v dflt, d !! key = Some v -> get d key dflt = v)
    by (intros key v dflt H; unfold get; rewrite H; reflexivity).
  split; [|split].
  - intros v Hv Hbad. unfold Player.from_dict, getitem.
    rewrite Hn, Ht, (Hget "ptype" v) by exact Hv.
    cbn [mbind outcome_bind as_str].
    destruct v as [s| | |]; simpl in *; try reflexivity.
    destruct (PlayerType_of_value s); [discriminate | reflexivity].
  - intros v xs Hpt Hlvl Hpos Hv Hbad. unfold Player.from_dict, getitem.
    rewrite Hn, Ht, (get_ptype d "ptype" STRIKER Hpt),
      (get_num d "ai_lvl" 1 Hlvl), (Hget "pos" (VList xs)),
      (Hget "control" v) by assumption.
    cbn [mbind outcome_bind as_str tuple].
    destruct v as [s| | |]; simpl in *; try reflexivity.
    destruct (ControlType_of_value s); [discriminate | reflexivity].
  - intros xs Hpt Hlvl Hct Hpos Hlen. unfold Player.from_dict, getitem.
    rewrite Hn, Ht, (get_ptype d "ptype" STRIKER Hpt),
      (get_num d "ai_lvl" 1 Hlvl), (get_control d "control" AI Hct),
      (Hget "pos" (VList xs)) by assumption.
    cbn [mbind outcome_bind as_str tuple].
    destruct xs as [|x [|y xs]]; simpl in Hlen; try lia; reflexivity.
Qed.

Lemma X30_from_dict_rejects_witness :
  Player.from_dict (<["ptype" := VStr "winger"]> snapshot_identity_only)
  = Raise ValueError
  /\ Player.from_dict (<["control" := VStr "mouse"]>
                         (<["pos" := VList [1; 2]]> snapshot_identity_only))
     = Raise ValueError
  /\ Player.from_dict (<["pos" := VList [1]]> snapshot_identity_only)
     = Raise IndexError.
Proof.
  split; [|split].
  - destruct (X30_from_dict_rejects
                (<["ptype" := VStr "winger"]> snapshot_identity_only)
                "Alex" "A") as (H & _); [reflexivity | reflexivity |].
    apply (H (VStr "winger")); reflexivity.
  - destruct (X30_from_dict_rejects
                (<["control" := VStr "mouse"]>
                   (<["pos" := VList [1; 2]]> snapshot_identity_only))
                "Alex" "A") as (_ & H & _); [reflexivity | reflexivity |].
    apply (H (VStr "mouse") [1; 2]); reflexivity.
  - destruct (X30_from_dict_rejects
                (<["pos" := VList [1]]> snapshot_identity_only)
                "Alex" "A") as (_ & _ & H); [reflexivity | reflexivity |].
    apply (H [1]); try reflexivity. simpl. lia.
Defined.
